(** * Equity-ranking pipeline: hard screener, factor engine, ranking engine

    A shallow embedding of [config/settings.py], [agents/quant/agent4_screener.py],
    [agents/quant/agent5_factors.py] and [agents/scoring/agent6_ranker.py].

    Numbers.  The Python code computes on IEEE doubles; here a finite double
    is an exact real ([R]) and every operation is the exact one.  A pandas
    missing value (Python [None] in a [float | None] field, [NaN] in a float
    column) is [None] of [option R]: pandas' [dropna], [fillna], [mean] and
    [std] read both the same way.  Rounding error is therefore outside the
    model; what is modelled is the control flow, the guards, the formulas and
    the handling of missing values.

    There is one place where rounding decides a branch: the guard [std == 0]
    of [rank_stocks].  Module [Binary64] repeats steps 1 to 4 of
    [rank_stocks] on binary64 numbers to evaluate that guard as the code
    does. *)

From Stdlib Require Import Reals Lra Lia ZArith String Bool List Permutation Sorted.
From Stdlib Require Floats.
Import ListNotations.

Local Open Scope R_scope.

(** ** config/settings.py *)

Module Settings.

Definition MIN_MARKET_CAP : R := 2000000000.
Definition MIN_AVG_DAILY_VOLUME_USD : R := 5000000.
Definition MAX_DEBT_TO_EQUITY : R := 3.
Definition MIN_PRICE : R := 5.

Definition MOMENTUM_LONG_WINDOW_DAYS : Z := 252.
Definition MOMENTUM_SHORT_WINDOW_DAYS : Z := 21.
Definition VOLATILITY_WINDOW_DAYS : Z := 63.

(** [FACTOR_WEIGHTS], one definition per key of the dict. *)
Definition FACTOR_WEIGHTS_momentum : R := 40 / 100.
Definition FACTOR_WEIGHTS_quality : R := 35 / 100.
Definition FACTOR_WEIGHTS_low_vol : R := 25 / 100.

Definition TOP_N_PER_SECTOR : Z := 3.

End Settings.

(** ** The fragment of pandas the agents use *)

Module Pandas.

(** A float column: [None] is a missing value (NaN). *)
Definition Series := list (option R).

(** [Series.dropna()]: the present values, in order. *)
Fixpoint dropna (s : Series) : list R :=
  match s with
  | [] => []
  | Some x :: t => x :: dropna t
  | None :: t => dropna t
  end.

(** [Series.fillna(d)] applied to one cell. *)
Definition fillna (d : R) (v : option R) : R :=
  match v with Some x => x | None => d end.

(** [s.iloc[i]] for a Python integer [i]: negative positions count from the
    end; a position outside the series raises [IndexError], here [None]. *)
Definition iloc (l : list R) (i : Z) : option R :=
  let len := Z.of_nat (length l) in
  if (0 <=? i)%Z then nth_error l (Z.to_nat i)
  else if (- i <=? len)%Z then nth_error l (Z.to_nat (len + i))
  else None.

(** [s.iloc[-k:]] for [k > 0]: the last [k] values (all of them when the
    series is shorter). *)
Definition iloc_tail (l : list R) (k : Z) : list R :=
  skipn (Z.to_nat (Z.of_nat (length l) - k)) l.

Definition sum (l : list R) : R := fold_right Rplus 0 l.

(** [Series.mean(skipna=True)]: NaN when no value is present.  The quotient
    is the exact one; the double pandas returns can differ from it in the
    last bits (for 0.1, 0.1, 0.1 it is 0.10000000000000002, see
    [Binary64.mean]). *)
Definition mean (s : Series) : option R :=
  match dropna s with
  | [] => None
  | v => Some (sum v / INR (length v))
  end.

(** [Series.std(skipna=True)], the sample standard deviation ([ddof = 1]):
    NaN when fewer than two values are present.  The value is the exact one.
    It is zero exactly when the present values are identical, which the
    double of pandas is not bound to be: the deviations are taken from the
    rounded mean, and for 0.1, 0.1, 0.1 the double is 1.7e-17 (see
    [Binary64.std]).  Statements that need a zero or non-zero deviation are
    therefore made for columns on which the two agree. *)
Definition std (s : Series) : option R :=
  let v := dropna s in
  if (length v <=? 1)%nat then None
  else
    let avg := sum v / INR (length v) in
    Some (sqrt (sum (map (fun x => Rsqr (avg - x)) v) / INR (length v - 1))).

(** A float quotient.  A zero divisor gives no finite double (an infinity,
    or NaN for [0/0]); [None] stands for that outcome. *)
Definition fdiv (x y : R) : option R :=
  if Req_dec_T y 0 then None else Some (x / y).

(** [DataFrame.head(n)]: the first [n] rows, or all but the last [-n] rows
    when [n] is negative. *)
Definition head {A : Type} (n : Z) (l : list A) : list A :=
  if (0 <=? n)%Z then firstn (Z.to_nat n) l
  else firstn (length l - Z.to_nat (- n)) l.

(** [round(x, 4)] on a numpy double: scale by [10^4], round to the nearest
    integer with ties to the even one, scale back. *)
Definition rint (x : R) : Z :=
  let f := Int_part x in
  let d := frac_part x in
  if Rlt_dec d (1 / 2) then f
  else if Rlt_dec (1 / 2) d then (f + 1)%Z
  else if Z.even f then f else (f + 1)%Z.

Definition round4 (x : R) : R := IZR (rint (x * 10000)) / 10000.

End Pandas.

(** ** data/skeleton/base_provider.py *)

Module Provider.

(** The outcome of a provider call: a value, or [DataProviderError(msg)]
    raised. *)
Inductive result (A : Type) : Type :=
| Ok (a : A)
| Raise (msg : string).
Arguments Ok {A} a.
Arguments Raise {A} msg.

(** One row of the OHLCV frame returned by [get_price_history]. *)
Record Bar : Type := mkBar
  { open : option R; high : option R; low : option R;
    close : option R; volume : option R }.

(** The dict returned by [get_fundamentals]; [d.get(k)] is [None] both for a
    key that is missing and for a key bound to [None]. *)
Record Fundamentals : Type := mkFundamentals
  { market_cap : option R;
    avg_daily_volume : option R;
    debt_to_equity : option R;
    return_on_equity : option R;
    earnings_per_share : option R;
    price : option R }.

(** The abstract class [DataProvider]. *)
Record DataProvider : Type := mkDataProvider
  { get_price_history : string -> string -> string -> result (list Bar);
    get_fundamentals : string -> result Fundamentals;
    get_tickers_for_sector : string -> result (list string) }.

End Provider.

(** ** agents/quant/agent4_screener.py *)

Module Agent4.
Import Settings Provider.

(** The text of [ScreeningResult.reason].  The failure messages are
    f-strings around the offending value; a constructor per message keeps
    the value instead of its decimal rendering. *)
Inductive Reason : Type :=
| Data_unavailable (e : string)           (* "Data unavailable: {e}" *)
| Price_unavailable                       (* "Price unavailable" *)
| Price_below_minimum (price : R)         (* "Price $.. below minimum $.." *)
| Market_cap_unavailable                  (* "Market cap unavailable" *)
| Market_cap_below_minimum (market_cap : R)
| Average_volume_unavailable              (* "Average volume unavailable" *)
| Avg_daily_volume_below_minimum (avg_vol : R)
| Debt_equity_exceeds_maximum (dte : R)
| All_filters_passed.                     (* "All filters passed" *)

Record ScreeningResult : Type := mkScreeningResult
  { ticker : string; passed : bool; reason : Reason }.

Definition _screen_single (ticker : string) (data_provider : DataProvider)
  : ScreeningResult :=
  match get_fundamentals data_provider ticker with
  | Raise e => mkScreeningResult ticker false (Data_unavailable e)
  | Ok fundamentals =>
    match price fundamentals with
    | None => mkScreeningResult ticker false Price_unavailable
    | Some price =>
      if Rlt_dec price MIN_PRICE
      then mkScreeningResult ticker false (Price_below_minimum price)
      else
      match market_cap fundamentals with
      | None => mkScreeningResult ticker false Market_cap_unavailable
      | Some market_cap =>
        if Rlt_dec market_cap MIN_MARKET_CAP
        then mkScreeningResult ticker false (Market_cap_below_minimum market_cap)
        else
        match avg_daily_volume fundamentals with
        | None => mkScreeningResult ticker false Average_volume_unavailable
        | Some avg_vol =>
          if Rlt_dec avg_vol MIN_AVG_DAILY_VOLUME_USD
          then mkScreeningResult ticker false
                 (Avg_daily_volume_below_minimum avg_vol)
          else
          match debt_to_equity fundamentals with
          | Some dte =>
            if Rgt_dec dte MAX_DEBT_TO_EQUITY
            then mkScreeningResult ticker false
                   (Debt_equity_exceeds_maximum dte)
            else mkScreeningResult ticker true All_filters_passed
          | None => mkScreeningResult ticker true All_filters_passed
          end
        end
      end
    end
  end.

Definition screen_universe (tickers : list string) (data_provider : DataProvider)
  : list string * list ScreeningResult :=
  let results := map (fun t => _screen_single t data_provider) tickers in
  (map ticker (filter passed results), results).

(** The four threshold checks, by name and in the order of the contract. *)
Inductive Check : Type :=
| Price_floor | Market_cap_floor | Avg_dollar_volume_floor | Debt_to_equity_ceiling.

Definition check_order : list Check :=
  [Price_floor; Market_cap_floor; Avg_dollar_volume_floor; Debt_to_equity_ceiling].

(** A floor fails on a missing value and on a value under the floor. *)
Definition below_floor (v : option R) (floor : R) : bool :=
  match v with
  | None => true
  | Some x => if Rlt_dec x floor then true else false
  end.

(** The ceiling fails only on a present value above it. *)
Definition above_ceiling (v : option R) (ceiling : R) : bool :=
  match v with
  | None => false
  | Some x => if Rgt_dec x ceiling then true else false
  end.

(** Whether a check, taken on its own, fails on a fundamentals record. *)
Definition fails (f : Fundamentals) (c : Check) : bool :=
  match c with
  | Price_floor => below_floor (price f) MIN_PRICE
  | Market_cap_floor => below_floor (market_cap f) MIN_MARKET_CAP
  | Avg_dollar_volume_floor => below_floor (avg_daily_volume f) MIN_AVG_DAILY_VOLUME_USD
  | Debt_to_equity_ceiling => above_ceiling (debt_to_equity f) MAX_DEBT_TO_EQUITY
  end.

(** The check a reason names, if any. *)
Definition names (r : Reason) : option Check :=
  match r with
  | Price_unavailable | Price_below_minimum _ => Some Price_floor
  | Market_cap_unavailable | Market_cap_below_minimum _ => Some Market_cap_floor
  | Average_volume_unavailable | Avg_daily_volume_below_minimum _ =>
      Some Avg_dollar_volume_floor
  | Debt_equity_exceeds_maximum _ => Some Debt_to_equity_ceiling
  | Data_unavailable _ | All_filters_passed => None
  end.

End Agent4.

(** ** agents/quant/agent5_factors.py *)

Module Agent5.
Import Settings Provider Pandas.

Record FactorScores : Type := mkFactorScores
  { ticker : string;
    momentum : option R;
    quality : option R;
    low_vol : option R }.

Definition _compute_momentum (prices : list Bar) : option R :=
  let close := dropna (map Provider.close prices) in
  if (Z.of_nat (length close) <? MOMENTUM_LONG_WINDOW_DAYS)%Z then None
  else
    match iloc close (- MOMENTUM_LONG_WINDOW_DAYS),
          iloc close (- MOMENTUM_SHORT_WINDOW_DAYS) with
    | Some price_12m_ago, Some price_1m_ago =>
        if Rle_dec price_12m_ago 0 then None
        else Some ((price_1m_ago - price_12m_ago) / price_12m_ago)
    | _, _ => None (* IndexError; excluded by the length guard *)
    end.

Definition _compute_quality (fundamentals : Fundamentals) : option R :=
  let roe := return_on_equity fundamentals in
  let dte := debt_to_equity fundamentals in
  match roe, dte with
  | None, None => None
  | _, _ =>
    let components :=
      (match roe with
       | Some roe =>
           let roe_clipped := Rmax (- (1 / 2)) (Rmin 1 roe) in
           [(roe_clipped + 1 / 2) / (3 / 2)]
       | None => []
       end)
      ++
      (match dte with
       | Some dte =>
           let dte_clipped := Rmax 0 (Rmin 3 dte) in
           [1 - dte_clipped / 3]
       | None => []
       end) in
    Some (sum components / INR (length components))
  end.

(** One cell of [recent_close.pct_change()].  A zero previous close gives
    NaN ([0/0]) or an infinity; NaN is removed by [dropna], an infinity is
    not. *)
Inductive Return : Type :=
| ret_nan
| ret_inf
| ret (r : R).

Definition pct (prev cur : R) : Return :=
  if Req_dec_T prev 0
  then (if Req_dec_T cur 0 then ret_nan else ret_inf)
  else ret (cur / prev - 1).

Fixpoint pct_change_from (prev : R) (l : list R) : list Return :=
  match l with
  | [] => []
  | c :: t => pct prev c :: pct_change_from c t
  end.

Definition pct_change (l : list R) : list Return :=
  match l with
  | [] => []
  | c :: t => ret_nan :: pct_change_from c t
  end.

Definition not_nan (x : Return) : bool :=
  match x with ret_nan => false | _ => true end.

(** The finite values of a return column, or [None] if it holds an
    infinity. *)
Fixpoint finite_values (l : list Return) : option (list R) :=
  match l with
  | [] => Some []
  | ret r :: t => option_map (cons r) (finite_values t)
  | ret_nan :: t => finite_values t
  | ret_inf :: _ => None
  end.

(** The result [float(annualised_vol)] is NaN when a return is infinite;
    NaN is returned as [None], which is how [rank_stocks] reads it. *)
Definition _compute_volatility (prices : list Bar) : option R :=
  let close := dropna (map Provider.close prices) in
  if (Z.of_nat (length close) <? VOLATILITY_WINDOW_DAYS)%Z then None
  else
    let recent_close := iloc_tail close VOLATILITY_WINDOW_DAYS in
    let daily_returns := filter not_nan (pct_change recent_close) in
    if (length daily_returns <? 10)%nat then None
    else
      match finite_values daily_returns with
      | None => None
      | Some v =>
          match std (map Some v) with
          | Some s => Some (s * sqrt 252)
          | None => None
          end
      end.

Definition _score_single (ticker : string) (data_provider : DataProvider)
    (start_date end_date : string) : FactorScores :=
  match get_price_history data_provider ticker start_date end_date with
  | Raise e => mkFactorScores ticker None None None
  | Ok prices =>
    match get_fundamentals data_provider ticker with
    | Raise e => mkFactorScores ticker None None None
    | Ok fundamentals =>
        mkFactorScores ticker
          (_compute_momentum prices)
          (_compute_quality fundamentals)
          (_compute_volatility prices)
    end
  end.

(** [compute_factor_scores], with the two date strings already computed. *)
Definition compute_factor_scores (tickers : list string)
    (data_provider : DataProvider) (start_date end_date : string)
  : list FactorScores :=
  map (fun t => _score_single t data_provider start_date end_date) tickers.

End Agent5.

(** ** agents/scoring/agent6_ranker.py *)

Module Agent6.
Import Settings Pandas.

Record RankedStock : Type := mkRankedStock
  { ticker : string;
    composite_score : R;
    momentum_z : R;
    quality_z : R;
    low_vol_z : R;
    rank : Z }.

(** A row of [df] as first built: the ticker and its three raw factors. *)
Record Row : Type := mkRow
  { row_ticker : string;
    row_momentum : option R;
    row_quality : option R;
    row_low_vol : option R }.

(** A row of [df] after steps 3 and 4: the z-score columns and the
    composite, none of them rounded yet. *)
Record Scored : Type := mkScored
  { sc_ticker : string;
    sc_momentum_z : R;
    sc_quality_z : R;
    sc_low_vol_z : R;
    sc_composite_score : R }.

Definition to_row (s : Agent5.FactorScores) : Row :=
  mkRow (Agent5.ticker s) (Agent5.momentum s) (Agent5.quality s) (Agent5.low_vol s).

(** Step 1: [lambda v: -v if v is not None else None] on the [low_vol]
    column. *)
Definition invert (v : option R) : option R :=
  match v with Some x => Some (- x) | None => None end.

Definition invert_low_vol (r : Row) : Row :=
  mkRow (row_ticker r) (row_momentum r) (row_quality r) (invert (row_low_vol r)).

Definition present (v : option R) : bool :=
  match v with Some _ => true | None => false end.

(** Step 2: [dropna(subset=factor_cols, how="all")] keeps a row unless all
    three factor cells are missing. *)
Definition has_factor (r : Row) : bool :=
  present (row_momentum r) || present (row_quality r) || present (row_low_vol r).

Definition prepare (factor_scores : list Agent5.FactorScores) : list Row :=
  filter has_factor (map invert_low_vol (map to_row factor_scores)).

(** Step 3, one cell of [df[col_z]] given the column's [mean] and [std],
    before the final [fillna].  The guard [std == 0 or pd.isna(std)] writes
    [0.0] in every cell; otherwise the cell is [(x - mean) / std], NaN for a
    missing [x]. *)
Definition zscore_raw (mean std : option R) (v : option R) : option R :=
  match std with
  | None => Some 0
  | Some s =>
      if Req_dec_T s 0 then Some 0
      else
        match v, mean with
        | Some x, Some m => fdiv (x - m) s
        | _, _ => None
        end
  end.

(** The cell after [df[col_z].fillna(0.0)]. *)
Definition zscore_cell (mean std : option R) (v : option R) : R :=
  fillna 0 (zscore_raw mean std v).

Definition zscore_column (series : Series) : list R :=
  map (zscore_cell (mean series) (std series)) series.

(** Step 4 on one row. *)
Definition composite (momentum_z quality_z low_vol_z : R) : R :=
  FACTOR_WEIGHTS_momentum * momentum_z
  + FACTOR_WEIGHTS_quality * quality_z
  + FACTOR_WEIGHTS_low_vol * low_vol_z.

(** Steps 3 and 4 on the frame: the statistics of each column are taken once
    over the whole frame, then every row gets its three cells and its
    composite. *)
Definition score (df : list Row) : list Scored :=
  let momentum := map row_momentum df in
  let quality := map row_quality df in
  let low_vol := map row_low_vol df in
  map (fun r =>
         let mz := zscore_cell (mean momentum) (std momentum) (row_momentum r) in
         let qz := zscore_cell (mean quality) (std quality) (row_quality r) in
         let vz := zscore_cell (mean low_vol) (std low_vol) (row_low_vol r) in
         mkScored (row_ticker r) mz qz vz (composite mz qz vz))
      df.

(** [df["rank"] = df.index + 1] after [reset_index(drop=True)]. *)
Definition with_rank (df : list Scored) : list (Scored * Z) :=
  combine df (map (fun i => (Z.of_nat i + 1)%Z) (seq 0 (length df))).

(** The [RankedStock] built from one row of [top]. *)
Definition to_ranked (row : Scored * Z) : RankedStock :=
  mkRankedStock
    (sc_ticker (fst row))
    (round4 (sc_composite_score (fst row)))
    (round4 (sc_momentum_z (fst row)))
    (round4 (sc_quality_z (fst row)))
    (round4 (sc_low_vol_z (fst row)))
    (snd row).

(** [top_n or TOP_N_PER_SECTOR]: [None] and [0] are falsy. *)
Definition effective_top_n (top_n : option Z) : Z :=
  match top_n with
  | None => TOP_N_PER_SECTOR
  | Some 0%Z => TOP_N_PER_SECTOR
  | Some k => k
  end.

Section Ranker.

(** [df.sort_values("composite_score", ascending=False)].  No [kind] is
    passed, so the default applies (quicksort), which pandas documents as
    not stable; the algorithm is numpy's, not this repository's, and is a
    parameter here. *)
Variable sort_values : list Scored -> list Scored.

Definition rank_stocks (factor_scores : list Agent5.FactorScores)
    (top_n : option Z) : list RankedStock :=
  let n := effective_top_n top_n in
  match factor_scores with
  | [] => []
  | _ =>
    let df := prepare factor_scores in
    match df with
    | [] => []
    | _ =>
      let df := score df in
      let df := with_rank (sort_values df) in
      let top := head n df in
      map to_ranked top
    end
  end.

End Ranker.

(** What pandas promises of [sort_values(..., ascending=False)] whatever the
    [kind]: the rows are rearranged, and the key is non-increasing. *)
Definition descending (l : list Scored) : Prop :=
  StronglySorted (fun a b => sc_composite_score b <= sc_composite_score a) l.

Definition sorts_descending (sort_values : list Scored -> list Scored) : Prop :=
  forall l, Permutation l (sort_values l) /\ descending (sort_values l).

(** A ticker with at least one factor present. *)
Definition scoreable (s : Agent5.FactorScores) : bool :=
  present (Agent5.momentum s) || present (Agent5.quality s)
  || present (Agent5.low_vol s).

(** What step 3 and step 4 leave for a retained ticker: a z-score of [0.0]
    for each factor it lacks, and a composite that is the weighted sum over
    the factors it has. *)
Definition neutrally_filled (s : Agent5.FactorScores) (sc : Scored) : Prop :=
  sc_ticker sc = Agent5.ticker s
  /\ (Agent5.momentum s = None -> sc_momentum_z sc = 0)
  /\ (Agent5.quality s = None -> sc_quality_z sc = 0)
  /\ (Agent5.low_vol s = None -> sc_low_vol_z sc = 0)
  /\ sc_composite_score sc
     = (if present (Agent5.momentum s)
        then FACTOR_WEIGHTS_momentum * sc_momentum_z sc else 0)
       + (if present (Agent5.quality s)
          then FACTOR_WEIGHTS_quality * sc_quality_z sc else 0)
       + (if present (Agent5.low_vol s)
          then FACTOR_WEIGHTS_low_vol * sc_low_vol_z sc else 0).

(** The row that steps 1 to 4 build for record [s] in the frame of
    [factor_scores]: its cells are taken against the statistics of the
    columns of the frame. *)
Definition frame_row (factor_scores : list Agent5.FactorScores)
    (s : Agent5.FactorScores) : Scored :=
  let df := prepare factor_scores in
  let momentum := map row_momentum df in
  let quality := map row_quality df in
  let low_vol := map row_low_vol df in
  let r := invert_low_vol (to_row s) in
  let mz := zscore_cell (mean momentum) (std momentum) (row_momentum r) in
  let qz := zscore_cell (mean quality) (std quality) (row_quality r) in
  let vz := zscore_cell (mean low_vol) (std low_vol) (row_low_vol r) in
  mkScored (row_ticker r) mz qz vz (composite mz qz vz).

(** What the result holds for a retained ticker: an entry with its ticker,
    with [0.0] for each factor the ticker lacks, and whose fields are the
    rounded fields of a neutrally filled row. *)
Definition returned_as (s : Agent5.FactorScores) (o : RankedStock) : Prop :=
  ticker o = Agent5.ticker s
  /\ (Agent5.momentum s = None -> momentum_z o = 0)
  /\ (Agent5.quality s = None -> quality_z o = 0)
  /\ (Agent5.low_vol s = None -> low_vol_z o = 0)
  /\ exists sc, neutrally_filled s sc /\ o = to_ranked (sc, rank o).


(** An insertion sort that meets [sorts_descending], for running
    [rank_stocks] on concrete universes.  A row is placed before the rows of
    equal key already placed, so rows of equal key keep their input order. *)
Definition goes_first (x y : R) : bool :=
  if Rle_dec y x then true else false.

Fixpoint insert_desc (x : Scored) (l : list Scored) : list Scored :=
  match l with
  | [] => [x]
  | y :: t =>
      if goes_first (sc_composite_score x) (sc_composite_score y)
      then x :: y :: t
      else y :: insert_desc x t
  end.

Definition sort_by_insertion (l : list Scored) : list Scored :=
  fold_right insert_desc [] l.

End Agent6.


(** ** Steps 1 to 4 of [rank_stocks] on binary64 numbers

    The same steps as in [Agent6], with the doubles of the code in place of
    exact reals: every operation rounds to the nearest double, ties to
    even. *)

Module Binary64.
Import PrimFloat.

Local Open Scope float_scope.
#[local] Set Warnings "-inexact-float".

Definition FACTOR_WEIGHTS_momentum : float := 0.40.
Definition FACTOR_WEIGHTS_quality : float := 0.35.
Definition FACTOR_WEIGHTS_low_vol : float := 0.25.

(** A [FactorScores] record: [float | None] in each factor. *)
Record FactorScores : Type := mkFactorScores
  { ticker : string;
    momentum : option float;
    quality : option float;
    low_vol : option float }.

(** A row of [df] once its factor columns are float columns
    ([df[col].astype(float)]): NaN stands for a missing value. *)
Record Row : Type := mkRow
  { row_ticker : string;
    row_momentum : float;
    row_quality : float;
    row_low_vol : float }.

Record Scored : Type := mkScored
  { sc_ticker : string;
    sc_momentum_z : float;
    sc_quality_z : float;
    sc_low_vol_z : float;
    sc_composite_score : float }.

Definition cell (v : option float) : float :=
  match v with Some x => x | None => nan end.

(** Step 1: [lambda v: -v if v is not None else None]. *)
Definition invert (v : option float) : option float :=
  match v with Some x => Some (opp x) | None => None end.

Definition to_row (s : FactorScores) : Row :=
  mkRow (ticker s) (cell (momentum s)) (cell (quality s)) (cell (invert (low_vol s))).

(** Step 2: [dropna(subset=factor_cols, how="all")]. *)
Definition has_factor (r : Row) : bool :=
  negb (is_nan (row_momentum r)) || negb (is_nan (row_quality r))
  || negb (is_nan (row_low_vol r)).

Definition prepare (factor_scores : list FactorScores) : list Row :=
  filter has_factor (map to_row factor_scores).

Definition dropna (series : list float) : list float :=
  filter (fun x => negb (is_nan x)) series.

(** The values are added from left to right, the order numpy follows for
    fewer than eight values (longer arrays are added by blocks, which can
    change the last bits of the total). *)
Definition sum (l : list float) : float := fold_left add l 0.

(** The number of present values, as a double. *)
Fixpoint count (n : nat) : float :=
  match n with
  | O => 0
  | S k => count k + 1
  end.

(** [Series.mean(skipna=True)]: the total of the present values over their
    number, NaN ([0 / 0]) when there is none. *)
Definition mean (series : list float) : float :=
  let v := dropna series in
  sum v / count (length v).

(** [Series.std(skipna=True)] with [ddof = 1]: NaN for fewer than two
    present values; otherwise the root of the total of the squared
    deviations from the rounded mean, over the number of values minus one. *)
Definition std (series : list float) : float :=
  let v := dropna series in
  if (length v <=? 1)%nat then nan
  else
    let avg := sum v / count (length v) in
    sqrt (sum (map (fun x => (avg - x) * (avg - x)) v) / (count (length v) - 1)).

Definition fillna (z : float) : float := if is_nan z then 0 else z.

(** Step 3 on one cell, with the guard [std == 0 or pd.isna(std)]. *)
Definition zscore_cell (mean std x : float) : float :=
  if eqb std 0 || is_nan std then 0
  else fillna ((x - mean) / std).

(** Step 4 on one row. *)
Definition composite (momentum_z quality_z low_vol_z : float) : float :=
  FACTOR_WEIGHTS_momentum * momentum_z
  + FACTOR_WEIGHTS_quality * quality_z
  + FACTOR_WEIGHTS_low_vol * low_vol_z.

(** Steps 3 and 4 on the frame. *)
Definition score (df : list Row) : list Scored :=
  let momentum := map row_momentum df in
  let quality := map row_quality df in
  let low_vol := map row_low_vol df in
  map (fun r =>
         let mz := zscore_cell (mean momentum) (std momentum) (row_momentum r) in
         let qz := zscore_cell (mean quality) (std quality) (row_quality r) in
         let vz := zscore_cell (mean low_vol) (std low_vol) (row_low_vol r) in
         mkScored (row_ticker r) mz qz vz (composite mz qz vz))
      df.

(** Three tickers with the same momentum, 0.1, and no other factor. *)
Definition identical_momenta : list FactorScores :=
  [ mkFactorScores "A" (Some 0.1) None None;
    mkFactorScores "B" (Some 0.1) None None;
    mkFactorScores "C" (Some 0.1) None None ].

End Binary64.
(** ** The factor formulas as the specification words them *)

Module FactorSpec.
Import Pandas.

(** [x] clipped to the range [[lo, hi]]. *)
Definition clip (lo hi x : R) : R :=
  if Rlt_dec x lo then lo else if Rlt_dec hi x then hi else x.

(** The linear map taking [lo] to [0] and [hi] to [1]. *)
Definition rescale (lo hi x : R) : R := (x - lo) / (hi - lo).

(** ROE clipped to [[-0.5, 1.0]], then mapped linearly to [[0, 1]]. *)
Definition roe_component (roe : R) : R :=
  rescale (- (1 / 2)) 1 (clip (- (1 / 2)) 1 roe).

(** Debt-to-equity clipped to [[0, 3.0]], mapped linearly to [[0, 1]], then
    inverted so that lower debt scores higher. *)
Definition dte_component (dte : R) : R :=
  1 - rescale 0 3 (clip 0 3 dte).

Definition arithmetic_mean (l : list R) : R := sum l / INR (length l).

(** The close [k] bars back, counting backward from the most recent
    available bar, which is bar number 1. *)
Definition bars_back (close : list R) (k : nat) : option R :=
  nth_error (rev close) (k - 1).

Definition strictly_increasing (l : list R) : Prop :=
  forall i j x y, (i < j)%nat ->
    nth_error l i = Some x -> nth_error l j = Some y -> x < y.

Definition strictly_decreasing (l : list R) : Prop :=
  forall i j x y, (i < j)%nat ->
    nth_error l i = Some x -> nth_error l j = Some y -> y < x.

(** Daily simple returns [c_(i+1) / c_i - 1] of consecutive closes. *)
Fixpoint simple_returns_from (prev : R) (l : list R) : list R :=
  match l with
  | [] => []
  | c :: t => (c / prev - 1) :: simple_returns_from c t
  end.

Definition simple_returns (l : list R) : list R :=
  match l with
  | [] => []
  | c :: t => simple_returns_from c t
  end.

(** The sample standard deviation of at least two values. *)
Definition sample_std (v : list R) : R :=
  sqrt (sum (map (fun x => (x - arithmetic_mean v) ^ 2) v)
        / (INR (length v) - 1)).

(** The last [k] values of a list. *)
Definition trailing (k : nat) (l : list R) : list R :=
  skipn (length l - k) l.

End FactorSpec.

(** ** Concrete inputs used below *)

Module Examples.
Import Settings Provider Pandas.

(** A provider in the manner of the test suite's [MockDataProvider]: one
    known ticker, a [DataProviderError] for any other. *)
Definition mock (known : string) (f : Fundamentals) : DataProvider :=
  mkDataProvider
    (fun _ _ _ => Raise "Not used in Agent 4 tests")
    (fun t => if String.eqb t known then Ok f
              else Raise ("No mock data for " ++ t))
    (fun _ => Raise "Not used in Agent 4 tests").

Definition GOOD_FUNDAMENTALS : Fundamentals :=
  mkFundamentals (Some 5000000000) (Some 10000000) (Some 1)
                 (Some (20 / 100)) (Some (35 / 10)) (Some 100).

Definition no_debt_figure : Fundamentals :=
  mkFundamentals (Some 5000000000) (Some 10000000) None
                 (Some (20 / 100)) (Some (35 / 10)) (Some 100).

Definition extreme_fundamentals : Fundamentals :=
  mkFundamentals None None (Some 50) (Some 9) None None.

Definition bar_of_close (c : R) : Bar :=
  mkBar (Some c) (Some c) (Some c) (Some c) (Some 1000000).

(** A year of bars: closes 1, 2, ..., 252, and closes 252, 251, ..., 1. *)
Definition rising_closes : list R := map INR (seq 1 252).
Definition falling_closes : list R := map (fun i => INR (253 - i)) (seq 1 252).
Definition rising_prices : list Bar := map bar_of_close rising_closes.
Definition falling_prices : list Bar := map bar_of_close falling_closes.

(** Universes in the manner of [tests/test_agent6.py]. *)
Definition make_score (ticker : string) (momentum quality low_vol : option R)
  : Agent5.FactorScores :=
  Agent5.mkFactorScores ticker momentum quality low_vol.

Definition partial_universe : list Agent5.FactorScores :=
  [ make_score "PARTIAL" (Some (3 / 10)) None (Some (15 / 100));
    make_score "FULL" (Some (2 / 10)) (Some (7 / 10)) (Some (2 / 10));
    make_score "BAD" None None None ].

Definition only : Agent5.FactorScores :=
  make_score "ONLY" (Some (2 / 10)) (Some (5 / 10)) (Some (15 / 100)).

(** Three tickers with the same momentum, a tenth, and no other factor. *)
Definition identical_momenta : list Agent5.FactorScores :=
  [ make_score "A" (Some (1 / 10)) None None;
    make_score "B" (Some (1 / 10)) None None;
    make_score "C" (Some (1 / 10)) None None ].

(** Two tickers that differ in their volatility only. *)
Definition calm : Agent5.FactorScores :=
  make_score "CALM" (Some (2 / 10)) (Some (5 / 10)) (Some (15 / 100)).
Definition wild : Agent5.FactorScores :=
  make_score "WILD" (Some (2 / 10)) (Some (5 / 10)) (Some (45 / 100)).
Definition calm_and_wild : list Agent5.FactorScores := [wild; calm].

(** A record that sits exactly on each of the four thresholds. *)
Definition at_the_bounds : Fundamentals :=
  mkFundamentals (Some 2000000000) (Some 5000000) (Some 3) None None (Some 5).

(** A quarter of bars at a constant close of 100. *)
Definition flat_prices : list Bar := map bar_of_close (repeat 100 63).

(** The closes 1, 2, ..., 265. *)
Definition long_closes : list R := map INR (seq 1 265).
Definition long_prices : list Bar := map bar_of_close long_closes.

(** Two rebalance dates. *)
Definition two_dates (start end_ freq : string) : list string :=
  ["2019-01-01"; "2019-01-02"]%string.

End Examples.

(** ** What passing the hard screen means *)

Module ScreenSpec.
Import Settings Provider.

(** Every threshold is met: the three floors by a present value at or above
    the floor, the debt-to-equity ceiling by a missing value or one at or
    below the ceiling. *)
Definition meets_thresholds (f : Fundamentals) : Prop :=
  (exists p, price f = Some p /\ MIN_PRICE <= p)
  /\ (exists m, market_cap f = Some m /\ MIN_MARKET_CAP <= m)
  /\ (exists v, avg_daily_volume f = Some v /\ MIN_AVG_DAILY_VOLUME_USD <= v)
  /\ (forall d, debt_to_equity f = Some d -> d <= MAX_DEBT_TO_EQUITY).

End ScreenSpec.

(** ** Varied inputs *)

Module Rescale.
Import Provider.

(** A bar with every price multiplied by [k] (a split adjustment, another
    currency); the volume is left alone. *)
Definition scale_bar (k : R) (b : Bar) : Bar :=
  mkBar (option_map (Rmult k) (open b)) (option_map (Rmult k) (high b))
        (option_map (Rmult k) (low b)) (option_map (Rmult k) (close b))
        (volume b).

(** A fundamentals record with its ROE, or its debt-to-equity, replaced. *)
Definition with_return_on_equity (f : Fundamentals) (roe : R) : Fundamentals :=
  mkFundamentals (market_cap f) (avg_daily_volume f) (debt_to_equity f)
                 (Some roe) (earnings_per_share f) (price f).

Definition with_debt_to_equity (f : Fundamentals) (dte : R) : Fundamentals :=
  mkFundamentals (market_cap f) (avg_daily_volume f) (Some dte)
                 (return_on_equity f) (earnings_per_share f) (price f).

End Rescale.

(** ** utils/validators.py *)

Module Validators.
Import Provider Pandas.

(** A price frame as the validator sees it: [None] for Python's [None],
    otherwise the column labels and the rows.  The cells of a row under a
    label that is not among [columns] are not part of the frame. *)
Record Frame : Type := mkFrame
  { columns : list string;
    rows : list Bar }.

Definition required_cols : list string :=
  ["open"; "high"; "low"; "close"; "volume"]%string.

(** [df.empty]: no row, or no column. *)
Definition empty (df : Frame) : bool :=
  match rows df, columns df with
  | [], _ => true
  | _, [] => true
  | _, _ => false
  end.

(** [required_cols - set(df.columns)] is not empty. *)
Definition missing_columns (df : Frame) : bool :=
  negb (forallb (fun c => existsb (String.eqb c) (columns df)) required_cols).

(** The number of [True] cells of [df["close"].isna()]. *)
Definition count_null (s : Series) : nat :=
  length (filter (fun v => match v with None => true | Some _ => false end) s).

(** [(df["close"] <= 0).any()]; a missing close compares false. *)
Definition any_non_positive (s : Series) : bool :=
  existsb (fun v => match v with
                    | Some x => if Rle_dec x 0 then true else false
                    | None => false
                    end) s.

Definition validate_price_history (df : option Frame) (ticker : string)
    (min_rows : Z) : bool :=
  match df with
  | None => false
  | Some df =>
    if empty df then false
    else if missing_columns df then false
    else if (Z.of_nat (length (rows df)) <? min_rows)%Z then false
    else
      let close := map Provider.close (rows df) in
      let null_pct := INR (count_null close) / INR (length close) in
      if Rgt_dec null_pct (5 / 100) then false
      else if any_non_positive close then false
      else true
  end.

(** What a frame that passes has, in whole numbers: a row, the five
    columns, at least [min_rows] rows, at most one missing close in twenty
    rows, and no present close at or below zero. *)
Definition fit_for_use (df : Frame) (min_rows : Z) : Prop :=
  rows df <> []
  /\ (forall c, In c required_cols -> In c (columns df))
  /\ (min_rows <= Z.of_nat (length (rows df)))%Z
  /\ (20 * count_null (map Provider.close (rows df)) <= length (rows df))%nat
  /\ (forall x, In x (dropna (map Provider.close (rows df))) -> 0 < x).

End Validators.

(** ** data/skeleton/yfinance_provider.py *)

Module YFinance.
Import Provider.
Local Open Scope string_scope.

Definition SECTOR_TICKERS : list (string * list string) :=
  [ ("Technology",
     ["AAPL"; "MSFT"; "NVDA"; "AVGO"; "ORCL"; "CSCO"; "ADBE"; "AMD"; "INTC"; "QCOM"]);
    ("Healthcare",
     ["UNH"; "JNJ"; "LLY"; "ABBV"; "MRK"; "TMO"; "ABT"; "DHR"; "BMY"; "AMGN"]);
    ("Financials",
     ["BRK-B"; "JPM"; "V"; "MA"; "BAC"; "WFC"; "GS"; "MS"; "BLK"; "AXP"]);
    ("Consumer Discretionary",
     ["AMZN"; "TSLA"; "HD"; "MCD"; "NKE"; "SBUX"; "TJX"; "BKNG"; "LOW"; "CMG"]);
    ("Energy",
     ["XOM"; "CVX"; "COP"; "EOG"; "SLB"; "MPC"; "PSX"; "VLO"; "PXD"; "OXY"]) ].

(** [SECTOR_TICKERS[sector]] for a key of the dict. *)
Fixpoint lookup (sector : string) (table : list (string * list string))
  : option (list string) :=
  match table with
  | [] => None
  | (k, v) :: rest => if String.eqb sector k then Some v else lookup sector rest
  end.

Definition get_tickers_for_sector (sector : string) : result (list string) :=
  match lookup sector SECTOR_TICKERS with
  | Some tickers => Ok tickers
  | None =>
      Raise ("Unknown sector '" ++ sector ++ "'. Available: "
             ++ "['Technology', 'Healthcare', 'Financials', "
             ++ "'Consumer Discretionary', 'Energy']")
  end.

End YFinance.

(** ** backtesting/backtest.py *)

Module Backtest.
Import Settings Provider.

Definition BACKTEST_START_DATE : string := "2019-01-01".
Definition BACKTEST_END_DATE : string := "2023-12-31".
Definition REBALANCE_FREQUENCY : string := "D".

Record BacktestSnapshot : Type := mkBacktestSnapshot
  { date : string;
    sector : string;
    selected_tickers : list string;
    ranked_stocks : list Agent6.RankedStock }.

Record BacktestResult : Type := mkBacktestResult
  { result_sector : string;
    start_date : string;
    end_date : string;
    snapshots : list BacktestSnapshot }.

(** [x or default] on a [str | None]: [None] and the empty string are
    falsy. *)
Definition or_default (x : option string) (default : string) : string :=
  match x with
  | None => default
  | Some EmptyString => default
  | Some s => s
  end.

Section Driver.

(** [df.sort_values] as in [Agent6]. *)
Variable sort_values : list Agent6.Scored -> list Agent6.Scored.

(** The date arithmetic of [compute_factor_scores]: the day
    [MOMENTUM_LONG_WINDOW_DAYS + 30] days before [end_date], as a string. *)
Variable lookback_start : string -> string.

(** [pd.date_range(start, end, freq)], each date already formatted with
    [strftime("%Y-%m-%d")]. *)
Variable date_range : string -> string -> string -> list string.

(** The only exception the modelled callees raise is the
    [DataProviderError] of [get_tickers_for_sector]; it is not caught
    here.  [as_of_date] is a formatted date, hence not empty, so that
    [compute_factor_scores] takes it as its end date. *)
Definition _run_single_period (sector : string) (data_provider : DataProvider)
    (as_of_date : string) : result BacktestSnapshot :=
  match get_tickers_for_sector data_provider sector with
  | Raise e => Raise e
  | Ok raw_tickers =>
    let passed := fst (Agent4.screen_universe raw_tickers data_provider) in
    let factor_scores :=
      Agent5.compute_factor_scores passed data_provider
        (lookback_start as_of_date) as_of_date in
    let ranked := Agent6.rank_stocks sort_values factor_scores None in
    Ok (mkBacktestSnapshot as_of_date sector (map Agent6.ticker ranked) ranked)
  end.

(** The loop of [run_backtest]: a period that raises is logged and
    skipped. *)
Fixpoint run_periods (sector : string) (data_provider : DataProvider)
    (rebalance_dates : list string) : list BacktestSnapshot :=
  match rebalance_dates with
  | [] => []
  | date_str :: rest =>
    match _run_single_period sector data_provider date_str with
    | Ok snapshot => snapshot :: run_periods sector data_provider rest
    | Raise _ => run_periods sector data_provider rest
    end
  end.

Definition run_backtest (sector : string) (data_provider : DataProvider)
    (start_date end_date frequency : option string) : BacktestResult :=
  let start := or_default start_date BACKTEST_START_DATE in
  let end_ := or_default end_date BACKTEST_END_DATE in
  let freq := or_default frequency REBALANCE_FREQUENCY in
  let rebalance_dates := date_range start end_ freq in
  mkBacktestResult sector start end_
    (run_periods sector data_provider rebalance_dates).

End Driver.

End Backtest.

(** ** A provider over the built-in sector table *)

Module Fixtures.
Import Provider.

(** The sector table of [YFinanceProvider] with the same history and the same
    fundamentals for every ticker. *)
Definition table_provider (prices : list Bar) (f : Fundamentals) : DataProvider :=
  mkDataProvider (fun _ _ _ => Ok prices) (fun _ => Ok f)
                 YFinance.get_tickers_for_sector.

End Fixtures.

(** * Properties *)

(** ** The hard screener *)

Module Screener.
Import Settings Provider Agent4 Examples.

Ltac decide_thresholds :=
  repeat match goal with
         | |- context [Rlt_dec ?a ?b] => destruct (Rlt_dec a b)
         | |- context [Rgt_dec ?a ?b] => destruct (Rgt_dec a b)
         end.

Lemma screen_single_ticker (t : string) (dp : DataProvider) :
  ticker (_screen_single t dp) = t.
Proof.
  unfold _screen_single.
  destruct (get_fundamentals dp t) as [f | e]; [ | reflexivity ].
  destruct (price f); [ | reflexivity ].
  destruct (market_cap f); [ | decide_thresholds; reflexivity ].
  destruct (avg_daily_volume f); [ | decide_thresholds; reflexivity ].
  destruct (debt_to_equity f); decide_thresholds; reflexivity.
Qed.

(** On a fetched record the result is decided by the first check of
    [check_order] that fails. *)
Lemma screen_single_first_failure (t : string) (dp : DataProvider) (f : Fundamentals) :
  get_fundamentals dp t = Ok f ->
  match find (fails f) check_order with
  | Some c => passed (_screen_single t dp) = false
              /\ names (reason (_screen_single t dp)) = Some c
  | None => passed (_screen_single t dp) = true
            /\ reason (_screen_single t dp) = All_filters_passed
  end.
Proof.
  intros Hf. unfold _screen_single. rewrite Hf.
  unfold check_order, find, fails, below_floor, above_ceiling.
  destruct (price f) as [p | ]; [ | split; reflexivity ].
  destruct (Rlt_dec p MIN_PRICE); [ split; reflexivity | ].
  destruct (market_cap f) as [m | ]; [ | split; reflexivity ].
  destruct (Rlt_dec m MIN_MARKET_CAP); [ split; reflexivity | ].
  destruct (avg_daily_volume f) as [v | ]; [ | split; reflexivity ].
  destruct (Rlt_dec v MIN_AVG_DAILY_VOLUME_USD); [ split; reflexivity | ].
  destruct (debt_to_equity f) as [d | ]; [ | split; reflexivity ].
  destruct (Rgt_dec d MAX_DEBT_TO_EQUITY); split; reflexivity.
Qed.

(** C9.  [_screen_single] always returns a [ScreeningResult] for the ticker
    it was given.  When the fundamentals fetch raises [DataProviderError e]
    the result fails with the reason carrying [e].  Otherwise the checks
    are taken in the order price floor, market-cap floor,
    average-dollar-volume floor, debt-to-equity ceiling: if one fails the
    result fails and its reason names the first that does, if none fails
    the result passes.  A missing price, market cap or average volume fails
    its check; a missing debt-to-equity never fails the ceiling. *)
Theorem screen_single_contract (t : string) (dp : DataProvider) :
  ticker (_screen_single t dp) = t
  /\ match get_fundamentals dp t with
     | Raise e =>
         passed (_screen_single t dp) = false
         /\ reason (_screen_single t dp) = Data_unavailable e
     | Ok f =>
         match find (fails f) check_order with
         | Some c => passed (_screen_single t dp) = false
                     /\ names (reason (_screen_single t dp)) = Some c
         | None => passed (_screen_single t dp) = true
                   /\ reason (_screen_single t dp) = All_filters_passed
         end
         /\ (price f = None -> fails f Price_floor = true)
         /\ (market_cap f = None -> fails f Market_cap_floor = true)
         /\ (avg_daily_volume f = None -> fails f Avg_dollar_volume_floor = true)
         /\ (debt_to_equity f = None -> fails f Debt_to_equity_ceiling = false)
     end.
Proof.
  split; [ apply screen_single_ticker | ].
  destruct (get_fundamentals dp t) as [f | e] eqn:Hf.
  - split; [ apply (screen_single_first_failure t dp f Hf) | ].
    unfold fails.
    repeat split; intros ->; reflexivity.
  - unfold _screen_single. rewrite Hf. split; reflexivity.
Qed.

(** The contract at a record without a debt-to-equity figure and at an
    unknown ticker. *)
Lemma screen_single_contract_witness :
  (debt_to_equity no_debt_figure = None
   /\ fails no_debt_figure Debt_to_equity_ceiling = false)
  /\ reason (_screen_single "UNKN" (mock "GOOD" no_debt_figure))
     = Data_unavailable "No mock data for UNKN".
Proof.
  split.
  - split; [ reflexivity | ].
    pose proof (screen_single_contract "GOOD" (mock "GOOD" no_debt_figure)) as [_ H].
    simpl in H. destruct H as (_ & _ & _ & _ & H). apply H. reflexivity.
  - pose proof (screen_single_contract "UNKN" (mock "GOOD" no_debt_figure)) as [_ H].
    simpl in H. apply H.
Defined.

End Screener.

(** ** The factor engine *)

Module Factors.
Import Settings Provider Pandas Agent5 FactorSpec Examples.

(** *** Quality *)

Lemma clip_as_coded (lo hi x : R) :
  lo <= hi -> Rmax lo (Rmin hi x) = clip lo hi x.
Proof.
  intros Hlohi. unfold clip, Rmax, Rmin.
  destruct (Rle_dec hi x), (Rlt_dec x lo), (Rlt_dec hi x);
    try destruct (Rle_dec lo hi); try destruct (Rle_dec lo x); lra.
Qed.

Lemma clip_range (lo hi x : R) : lo <= hi -> lo <= clip lo hi x <= hi.
Proof.
  intros Hlohi. unfold clip.
  destruct (Rlt_dec x lo), (Rlt_dec hi x); lra.
Qed.

Lemma roe_component_range (roe : R) : 0 <= roe_component roe <= 1.
Proof.
  unfold roe_component, rescale.
  pose proof (clip_range (- (1 / 2)) 1 roe ltac:(lra)).
  replace (1 - - (1 / 2)) with (3 / 2) by lra. lra.
Qed.

Lemma dte_component_range (dte : R) : 0 <= dte_component dte <= 1.
Proof.
  unfold dte_component, rescale.
  pose proof (clip_range 0 3 dte ltac:(lra)).
  replace (3 - 0) with 3 by lra. lra.
Qed.

Lemma compute_quality_cases (f : Fundamentals) :
  _compute_quality f =
  match return_on_equity f, debt_to_equity f with
  | None, None => None
  | Some roe, None => Some (arithmetic_mean [roe_component roe])
  | None, Some dte => Some (arithmetic_mean [dte_component dte])
  | Some roe, Some dte =>
      Some (arithmetic_mean [roe_component roe; dte_component dte])
  end.
Proof.
  unfold _compute_quality, arithmetic_mean, roe_component, dte_component, rescale.
  destruct (return_on_equity f) as [roe | ], (debt_to_equity f) as [dte | ];
    try reflexivity; cbn [app length sum fold_right];
    rewrite ?(clip_as_coded (- (1 / 2)) 1) by lra;
    rewrite ?(clip_as_coded 0 3) by lra;
    replace (1 - - (1 / 2)) with (3 / 2) by lra;
    replace (3 - 0) with 3 by lra;
    f_equal; f_equal; lra.
Qed.

(** C5.  The quality factor is absent iff both ROE and debt-to-equity are
    absent; otherwise it is the arithmetic mean of the available
    components, the ROE component being ROE clipped to [-0.5, 1.0] and
    mapped linearly to [0, 1], the D/E component being D/E clipped to
    [0, 3.0], mapped linearly and inverted; with both present the mean is
    half their sum, with one present it is that component; every score
    lies in [0, 1]. *)
Theorem compute_quality_contract (f : Fundamentals) :
  (_compute_quality f = None
   <-> return_on_equity f = None /\ debt_to_equity f = None)
  /\ _compute_quality f =
     match return_on_equity f, debt_to_equity f with
     | None, None => None
     | Some roe, None => Some (arithmetic_mean [roe_component roe])
     | None, Some dte => Some (arithmetic_mean [dte_component dte])
     | Some roe, Some dte =>
         Some (arithmetic_mean [roe_component roe; dte_component dte])
     end
  /\ (forall roe, arithmetic_mean [roe_component roe] = roe_component roe)
  /\ (forall roe dte, arithmetic_mean [roe_component roe; dte_component dte]
                      = (roe_component roe + dte_component dte) / 2)
  /\ (forall q, _compute_quality f = Some q -> 0 <= q <= 1).
Proof.
  assert (Hone : forall x, arithmetic_mean [x] = x).
  { intros x. unfold arithmetic_mean. cbn. lra. }
  assert (Htwo : forall x y, arithmetic_mean [x; y] = (x + y) / 2).
  { intros x y. unfold arithmetic_mean. cbn. lra. }
  split; [ | split; [ apply compute_quality_cases | split; [ | split ] ] ].
  - rewrite compute_quality_cases.
    destruct (return_on_equity f), (debt_to_equity f); split;
      try discriminate; try (intros [? ?]; discriminate); auto.
  - intros roe. apply Hone.
  - intros roe dte. apply Htwo.
  - intros q. rewrite compute_quality_cases.
    destruct (return_on_equity f) as [roe | ], (debt_to_equity f) as [dte | ];
      intros [= <-]; rewrite ?Hone, ?Htwo;
      try pose proof (roe_component_range roe);
      try pose proof (dte_component_range dte); lra.
Qed.

(** The contract at an extreme record: ROE of 900%, debt-to-equity of 50. *)
Lemma compute_quality_contract_witness :
  _compute_quality extreme_fundamentals <> None
  /\ forall q, _compute_quality extreme_fundamentals = Some q -> 0 <= q <= 1.
Proof.
  pose proof (compute_quality_contract extreme_fundamentals) as (Hnone & _ & _ & _ & Hrange).
  split; [ | exact Hrange ].
  intros Habs. apply Hnone in Habs. destruct Habs as [Habs _].
  discriminate Habs.
Defined.

(** *** Momentum *)

Lemma iloc_from_end (l : list R) (k : Z) :
  (1 <= k <= Z.of_nat (length l))%Z ->
  iloc l (- k) = bars_back l (Z.to_nat k)
  /\ bars_back l (Z.to_nat k) = nth_error l (length l - Z.to_nat k).
Proof.
  intros Hk. unfold iloc, bars_back.
  destruct (Z.leb_spec 0 (- k)); [ lia | ].
  destruct (Z.leb_spec (- - k) (Z.of_nat (length l))); [ | lia ].
  rewrite nth_error_rev.
  destruct (Nat.ltb_spec (Z.to_nat k - 1) (length l)); [ | lia ].
  replace (length l - S (Z.to_nat k - 1))%nat with (length l - Z.to_nat k)%nat by lia.
  split; [ f_equal; lia | reflexivity ].
Qed.

Lemma nth_error_in_range {A : Type} (l : list A) (i : nat) :
  (i < length l)%nat -> exists x, nth_error l i = Some x.
Proof.
  intros Hi. destruct (nth_error l i) as [x | ] eqn:E; [ eauto | ].
  apply nth_error_None in E. lia.
Qed.

(** C4.  With fewer than [LONG_WINDOW] valid closes momentum is absent.
    With at least that many, both anchors exist, counted backward from the
    most recent bar; momentum is absent when the long-window anchor is not
    positive, and is [(short - long) / long] when it is positive; it is then
    positive on a strictly increasing close path and negative on a strictly
    decreasing one. *)
Theorem compute_momentum_contract (prices : list Bar) :
  let close := dropna (map Provider.close prices) in
  ((Z.of_nat (length close) < MOMENTUM_LONG_WINDOW_DAYS)%Z ->
   _compute_momentum prices = None)
  /\ ((MOMENTUM_LONG_WINDOW_DAYS <= Z.of_nat (length close))%Z ->
      exists price_long price_short,
        bars_back close (Z.to_nat MOMENTUM_LONG_WINDOW_DAYS) = Some price_long
        /\ bars_back close (Z.to_nat MOMENTUM_SHORT_WINDOW_DAYS) = Some price_short
        /\ (price_long <= 0 -> _compute_momentum prices = None)
        /\ (0 < price_long ->
            _compute_momentum prices
            = Some ((price_short - price_long) / price_long))
        /\ (0 < price_long -> strictly_increasing close ->
            0 < (price_short - price_long) / price_long)
        /\ (0 < price_long -> strictly_decreasing close ->
            (price_short - price_long) / price_long < 0)).
Proof.
  intros close. unfold _compute_momentum. fold close.
  unfold MOMENTUM_LONG_WINDOW_DAYS, MOMENTUM_SHORT_WINDOW_DAYS.
  split.
  - intros Hshort.
    destruct (Z.ltb_spec (Z.of_nat (length close)) 252); [ reflexivity | lia ].
  - intros Hlong.
    destruct (Z.ltb_spec (Z.of_nat (length close)) 252); [ lia | ].
    destruct (iloc_from_end close 252 ltac:(lia)) as [Hl Hl'].
    destruct (iloc_from_end close 21 ltac:(lia)) as [Hs Hs'].
    destruct (nth_error_in_range close (length close - Z.to_nat 252) ltac:(lia))
      as [pl Hpl].
    destruct (nth_error_in_range close (length close - Z.to_nat 21) ltac:(lia))
      as [ps Hps].
    exists pl, ps. rewrite Hl, Hs, Hl', Hs', Hpl, Hps.
    repeat split.
    + intros Hneg. destruct (Rle_dec pl 0); [ reflexivity | lra ].
    + intros Hpos. destruct (Rle_dec pl 0); [ lra | reflexivity ].
    + intros Hpos Hinc.
      assert (pl < ps) by (eapply Hinc; [ | exact Hpl | exact Hps ]; lia).
      apply Rdiv_lt_0_compat; lra.
    + intros Hpos Hdec.
      assert (ps < pl) by (eapply Hdec; [ | exact Hpl | exact Hps ]; lia).
      apply Ropp_lt_cancel. rewrite Ropp_0.
      replace (- ((ps - pl) / pl)) with ((pl - ps) / pl) by (field; lra).
      apply Rdiv_lt_0_compat; lra.
Qed.

Lemma dropna_bar_of_close (l : list R) :
  dropna (map Provider.close (map bar_of_close l)) = l.
Proof.
  induction l as [ | c l IH]; [ reflexivity | ]. cbn. now rewrite IH.
Qed.

Lemma rising_closes_increasing : strictly_increasing rising_closes.
Proof.
  intros i j x y Hij. unfold rising_closes.
  rewrite !nth_error_map, !nth_error_seq.
  destruct (Nat.ltb_spec i 252), (Nat.ltb_spec j 252); cbn [option_map]; try discriminate.
  intros [= <-] [= <-]. apply (lt_INR (1 + i) (1 + j)). lia.
Qed.

Lemma falling_closes_decreasing : strictly_decreasing falling_closes.
Proof.
  intros i j x y Hij. unfold falling_closes.
  rewrite !nth_error_map, !nth_error_seq.
  destruct (Nat.ltb_spec i 252), (Nat.ltb_spec j 252); cbn [option_map]; try discriminate.
  intros [= <-] [= <-]. apply (lt_INR (253 - (1 + j)) (253 - (1 + i))). lia.
Qed.

Lemma first_bar_back (f : nat -> R) :
  bars_back (map f (seq 1 252)) (Z.to_nat MOMENTUM_LONG_WINDOW_DAYS) = Some (f 1%nat).
Proof.
  unfold bars_back. rewrite nth_error_rev, length_map, length_seq.
  unfold MOMENTUM_LONG_WINDOW_DAYS.
  change (Z.to_nat 252) with 252%nat.
  change (252 - 1 <? 252)%nat with true.
  change (252 - S (252 - 1))%nat with 0%nat.
  reflexivity.
Qed.

(** The contract on the 252 closes 1, 2, ..., 252, where momentum is present
    and positive, and on the closes 252, 251, ..., 1, where it is present and
    negative. *)
Lemma compute_momentum_contract_witness :
  (exists m, _compute_momentum rising_prices = Some m /\ 0 < m)
  /\ (exists m, _compute_momentum falling_prices = Some m /\ m < 0).
Proof.
  split.
  - destruct (compute_momentum_contract rising_prices) as [_ H].
    unfold rising_prices in H. rewrite dropna_bar_of_close in H.
    destruct H as (pl & ps & Hl & _ & _ & Heq & Hpos & _).
    { unfold rising_closes, MOMENTUM_LONG_WINDOW_DAYS.
      rewrite length_map, length_seq. lia. }
    unfold rising_closes in Hl. rewrite first_bar_back in Hl.
    injection Hl as <-. change (INR 1) with 1 in *.
    exists ((ps - 1) / 1). split.
    + apply Heq. lra.
    + apply Hpos; [ lra | apply rising_closes_increasing ].
  - destruct (compute_momentum_contract falling_prices) as [_ H].
    unfold falling_prices in H. rewrite dropna_bar_of_close in H.
    destruct H as (pl & ps & Hl & _ & _ & Heq & _ & Hneg).
    { unfold falling_closes, MOMENTUM_LONG_WINDOW_DAYS.
      rewrite length_map, length_seq. lia. }
    unfold falling_closes in Hl. rewrite first_bar_back in Hl.
    injection Hl as <-.
    assert (Hpl : 0 < INR (253 - 1)) by (apply lt_0_INR; lia).
    exists ((ps - INR (253 - 1)) / INR (253 - 1)). split.
    + apply Heq. exact Hpl.
    + apply Hneg; [ exact Hpl | apply falling_closes_decreasing ].
Defined.

(** *** Volatility *)

Lemma iloc_tail_trailing (l : list R) (k : Z) :
  (0 <= k)%Z -> iloc_tail l k = trailing (Z.to_nat k) l.
Proof.
  intros Hk. unfold iloc_tail, trailing. f_equal. lia.
Qed.

Lemma pct_change_from_nonzero (prev : R) (l : list R) :
  Forall (fun c => c <> 0) (prev :: l) ->
  pct_change_from prev l = map ret (simple_returns_from prev l).
Proof.
  revert prev. induction l as [ | c l IH]; intros prev Hnz; [ reflexivity | ].
  inversion Hnz as [ | ? ? Hprev Hrest]; subst.
  cbn [pct_change_from simple_returns_from map]. rewrite (IH c Hrest).
  unfold pct. destruct (Req_dec_T prev 0); [ contradiction | reflexivity ].
Qed.

Lemma daily_returns_nonzero (l : list R) :
  Forall (fun c => c <> 0) l ->
  filter not_nan (pct_change l) = map ret (simple_returns l).
Proof.
  destruct l as [ | c l]; [ reflexivity | ]. intros Hnz.
  cbn [pct_change simple_returns filter not_nan].
  rewrite (pct_change_from_nonzero c l Hnz).
  generalize (simple_returns_from c l). intros v.
  induction v as [ | x v IH]; [ reflexivity | ]. cbn. now rewrite IH.
Qed.

Lemma finite_values_ret (v : list R) : finite_values (map ret v) = Some v.
Proof.
  induction v as [ | x v IH]; [ reflexivity | ]. cbn. now rewrite IH.
Qed.

Lemma length_simple_returns_from (c : R) (l : list R) :
  length (simple_returns_from c l) = length l.
Proof.
  revert c. induction l as [ | d l IH]; intros c; [ reflexivity | ].
  cbn. now rewrite IH.
Qed.

Lemma length_simple_returns (l : list R) :
  length (simple_returns l) = (length l - 1)%nat.
Proof.
  destruct l as [ | c l]; [ reflexivity | ]. unfold simple_returns.
  rewrite length_simple_returns_from. cbn [length]. lia.
Qed.

Lemma dropna_present (v : list R) : dropna (map Some v) = v.
Proof.
  induction v as [ | x v IH]; [ reflexivity | ]. cbn. now rewrite IH.
Qed.

(** On a column without missing values and with at least two cells,
    [Series.std] is the sample standard deviation. *)
Lemma std_present (v : list R) :
  (2 <= length v)%nat -> std (map Some v) = Some (sample_std v).
Proof.
  intros Hlen. unfold std, sample_std, arithmetic_mean.
  rewrite dropna_present.
  destruct (Nat.leb_spec (length v) 1); [ lia | ].
  f_equal. f_equal. f_equal.
  - f_equal. apply map_ext. intros x. unfold Rsqr. ring.
  - rewrite minus_INR by lia. reflexivity.
Qed.

Lemma std_nonneg (s : Series) (d : R) : std s = Some d -> 0 <= d.
Proof.
  unfold std. destruct (length (dropna s) <=? 1)%nat; [ discriminate | ].
  intros [= <-]. apply sqrt_pos.
Qed.

(** The four facts about [_compute_volatility] on its own. *)
Lemma compute_volatility_facts (prices : list Bar) :
  let close := dropna (map Provider.close prices) in
  let window := Z.to_nat VOLATILITY_WINDOW_DAYS in
  ((Z.of_nat (length close) < VOLATILITY_WINDOW_DAYS)%Z ->
   _compute_volatility prices = None)
  /\ ((VOLATILITY_WINDOW_DAYS <= Z.of_nat (length close))%Z ->
      Forall (fun c => c <> 0) (trailing window close) ->
      _compute_volatility prices
      = Some (sample_std (simple_returns (trailing window close)) * sqrt 252))
  /\ ((length (filter not_nan
                 (pct_change (iloc_tail close VOLATILITY_WINDOW_DAYS))) < 10)%nat ->
      _compute_volatility prices = None)
  /\ (forall v, _compute_volatility prices = Some v -> 0 <= v).
Proof.
  intros close window. unfold _compute_volatility. fold close.
  unfold window, VOLATILITY_WINDOW_DAYS.
  repeat split.
  - intros Hshort.
    destruct (Z.ltb_spec (Z.of_nat (length close)) 63); [ reflexivity | lia ].
  - intros Hlong Hnz.
    destruct (Z.ltb_spec (Z.of_nat (length close)) 63); [ lia | ].
    rewrite iloc_tail_trailing by lia.
    rewrite (daily_returns_nonzero _ Hnz).
    assert (Hlen : length (simple_returns (trailing (Z.to_nat 63) close)) = 62%nat).
    { rewrite length_simple_returns. unfold trailing. rewrite length_skipn. lia. }
    rewrite length_map, Hlen. cbn [Nat.ltb Nat.leb].
    rewrite finite_values_ret, std_present by lia. reflexivity.
  - intros Hfew.
    destruct (Z.ltb (Z.of_nat (length close)) 63); [ reflexivity | ].
    destruct (Nat.ltb_spec
                (length (filter not_nan (pct_change (iloc_tail close 63)))) 10);
      [ reflexivity | lia ].
  - intros v.
    destruct (Z.ltb (Z.of_nat (length close)) 63); [ discriminate | ].
    destruct (Nat.ltb _ 10); [ discriminate | ].
    destruct (finite_values _) as [w | ]; [ | discriminate ].
    destruct (std (map Some w)) as [d | ] eqn:Hd; [ | discriminate ].
    intros [= <-]. apply Rmult_le_pos; [ apply (std_nonneg _ _ Hd) | apply sqrt_pos ].
Qed.

(** *** One ticker, and the batch *)

(** C7.  [_score_single] always returns a record for the ticker it was
    given: with all three factors absent when the price-history fetch or the
    fundamentals fetch raises [DataProviderError], and otherwise with each
    factor computed from its own input alone (momentum and volatility from
    the prices, quality from the fundamentals), so that no factor's absence
    bears on another.  [compute_factor_scores] returns one record per
    ticker, in order. *)
Theorem score_single_contract (t : string) (dp : DataProvider)
    (start_date end_date : string) (tickers : list string) :
  ticker (_score_single t dp start_date end_date) = t
  /\ match get_price_history dp t start_date end_date, get_fundamentals dp t with
     | Ok prices, Ok fundamentals =>
         momentum (_score_single t dp start_date end_date)
         = _compute_momentum prices
         /\ quality (_score_single t dp start_date end_date)
            = _compute_quality fundamentals
         /\ low_vol (_score_single t dp start_date end_date)
            = _compute_volatility prices
     | _, _ =>
         _score_single t dp start_date end_date = mkFactorScores t None None None
     end
  /\ map ticker (compute_factor_scores tickers dp start_date end_date) = tickers.
Proof.
  assert (Ht : forall t', ticker (_score_single t' dp start_date end_date) = t').
  { intros t'. unfold _score_single.
    destruct (get_price_history dp t' start_date end_date); [ | reflexivity ].
    destruct (get_fundamentals dp t'); reflexivity. }
  split; [ apply Ht | split ].
  - unfold _score_single.
    destruct (get_price_history dp t start_date end_date); [ | reflexivity ].
    destruct (get_fundamentals dp t); [ repeat split | reflexivity ].
  - unfold compute_factor_scores. rewrite map_map.
    induction tickers as [ | t' ts IH]; [ reflexivity | ].
    cbn [map]. now rewrite Ht, IH.
Qed.

End Factors.

(** ** The ranking engine *)

Module Ranking.
Import Settings Pandas Agent6 FactorSpec Examples.

(** *** The insertion sort meets the contract of [sort_values] *)

Lemma goes_first_le (x y : R) : goes_first x y = true -> y <= x.
Proof.
  unfold goes_first. destruct (Rle_dec y x); intros; try discriminate; lra.
Qed.

Lemma goes_first_ge (x y : R) : goes_first x y = false -> x <= y.
Proof.
  unfold goes_first. destruct (Rle_dec y x); intros; try discriminate; lra.
Qed.

Lemma insert_desc_perm (x : Scored) (l : list Scored) :
  Permutation (x :: l) (insert_desc x l).
Proof.
  induction l as [ | y t IH]; cbn [insert_desc]; [ reflexivity | ].
  destruct (goes_first _ _); [ reflexivity | ].
  rewrite perm_swap. now apply perm_skip.
Qed.

Lemma insert_desc_sorted (x : Scored) (l : list Scored) :
  descending l -> descending (insert_desc x l).
Proof.
  unfold descending. induction l as [ | y t IH]; cbn [insert_desc]; intros Hs.
  - repeat constructor.
  - inversion Hs as [ | ? ? Ht Hy]; subst.
    destruct (goes_first _ _) eqn:E.
    + apply goes_first_le in E. constructor; [ exact Hs | ].
      constructor; [ exact E | ].
      rewrite Forall_forall in Hy |- *. intros z Hz. specialize (Hy z Hz). lra.
    + apply goes_first_ge in E. constructor; [ now apply IH | ].
      rewrite Forall_forall in Hy |- *. intros z Hz.
      apply (Permutation_in _ (Permutation_sym (insert_desc_perm x t))) in Hz.
      destruct Hz as [<- | Hz]; [ exact E | now apply Hy ].
Qed.

Lemma sort_by_insertion_sorts : sorts_descending sort_by_insertion.
Proof.
  intros l. unfold sort_by_insertion.
  induction l as [ | x l [IHp IHs]]; cbn [fold_right].
  - split; [ reflexivity | constructor ].
  - split; [ | now apply insert_desc_sorted ].
    etransitivity; [ apply perm_skip, IHp | apply insert_desc_perm ].
Qed.

(** *** Steps 1 and 2 *)

Lemma present_invert (v : option R) : present (invert v) = present v.
Proof. now destruct v. Qed.

Lemma has_factor_scoreable (s : Agent5.FactorScores) :
  has_factor (invert_low_vol (to_row s)) = scoreable s.
Proof.
  unfold has_factor, scoreable. cbn. now rewrite present_invert.
Qed.

Lemma prepare_retained (scores : list Agent5.FactorScores) :
  prepare scores
  = map (fun s => invert_low_vol (to_row s)) (filter scoreable scores).
Proof.
  unfold prepare. rewrite map_map.
  induction scores as [ | s l IH]; [ reflexivity | ].
  cbn [map filter]. rewrite has_factor_scoreable, IH.
  now destruct (scoreable s).
Qed.

Lemma filter_idempotent {A : Type} (f : A -> bool) (l : list A) :
  filter f (filter f l) = filter f l.
Proof.
  induction l as [ | x l IH]; [ reflexivity | ]. cbn [filter].
  destruct (f x) eqn:E; [ cbn [filter]; now rewrite E, IH | exact IH ].
Qed.

Lemma prepare_after_drop (scores : list Agent5.FactorScores) :
  prepare (filter scoreable scores) = prepare scores.
Proof. now rewrite !prepare_retained, filter_idempotent. Qed.

(** *** Step 3 *)

Lemma zscore_cell_missing (mean std : option R) : zscore_cell mean std None = 0.
Proof.
  unfold zscore_cell, zscore_raw.
  destruct std as [s | ]; [ | reflexivity ].
  destruct (Req_dec_T s 0); [ reflexivity | ]. now destruct mean.
Qed.

Lemma zscore_cell_degenerate (mean std v : option R) :
  std = None \/ std = Some 0 -> zscore_cell mean std v = 0.
Proof.
  unfold zscore_cell, zscore_raw. intros [-> | ->]; [ reflexivity | ].
  destruct (Req_dec_T 0 0); [ reflexivity | contradiction ].
Qed.

Lemma std_undefined (series : Series) :
  (length (dropna series) <= 1)%nat -> std series = None.
Proof.
  intros H. unfold std.
  destruct (Nat.leb_spec (length (dropna series)) 1); [ reflexivity | lia ].
Qed.

Lemma std_defined (series : Series) :
  (2 <= length (dropna series))%nat ->
  exists s m, std series = Some s /\ mean series = Some m /\ 0 <= s.
Proof.
  intros H. unfold std, mean.
  destruct (Nat.leb_spec (length (dropna series)) 1); [ lia | ].
  destruct (dropna series) eqn:E; [ cbn in H; lia | ].
  eexists _, _. repeat split. apply sqrt_pos.
Qed.

Lemma sum_constant (c : R) (v : list R) :
  (forall x, In x v -> x = c) -> sum v = INR (length v) * c.
Proof.
  induction v as [ | x v IH]; intros Hc.
  - cbn. lra.
  - cbn [length]. rewrite S_INR. cbn [sum fold_right].
    fold (sum v). rewrite IH by (intros y Hy; apply Hc; now right).
    rewrite (Hc x) by now left. lra.
Qed.

Lemma sum_zero (f : R -> R) (v : list R) :
  (forall x, In x v -> f x = 0) -> sum (map f v) = 0.
Proof.
  induction v as [ | x v IH]; intros Hf; [ reflexivity | ].
  cbn [map sum fold_right]. fold (sum (map f v)).
  rewrite IH by (intros y Hy; apply Hf; now right).
  rewrite (Hf x) by now left. lra.
Qed.

Lemma std_identical (series : Series) :
  (2 <= length (dropna series))%nat ->
  (forall x y, In x (dropna series) -> In y (dropna series) -> x = y) ->
  std series = Some 0.
Proof.
  intros Hlen Hsame. unfold std.
  destruct (Nat.leb_spec (length (dropna series)) 1); [ lia | ].
  destruct (dropna series) as [ | c v] eqn:E; [ cbn in Hlen; lia | ].
  rewrite <- E in *.
  assert (Hc : forall x, In x (dropna series) -> x = c).
  { intros x Hx. apply Hsame; [ exact Hx | rewrite E; now left ]. }
  assert (Hn : INR (length (dropna series)) <> 0).
  { apply not_0_INR. lia. }
  rewrite sum_zero.
  - unfold Rdiv. rewrite Rmult_0_l. now rewrite sqrt_0.
  - intros x Hx. rewrite (sum_constant c _ Hc), (Hc x Hx).
    unfold Rsqr. field. exact Hn.
Qed.

Lemma fdiv_nonzero (x y : R) : y <> 0 -> fdiv x y = Some (x / y).
Proof.
  intros Hy. unfold fdiv. destruct (Req_dec_T y 0); [ contradiction | reflexivity ].
Qed.

(** A present cell never yields a failed quotient. *)
Lemma zscore_raw_present (series : Series) (x : R) :
  (exists s m, std series = Some s /\ mean series = Some m /\ s <> 0
               /\ fdiv (x - m) s = Some ((x - m) / s)
               /\ zscore_raw (mean series) (std series) (Some x)
                  = Some ((x - m) / s))
  \/ ((std series = None \/ std series = Some 0)
      /\ zscore_raw (mean series) (std series) (Some x) = Some 0).
Proof.
  destruct (Nat.leb_spec (length (dropna series)) 1) as [Hle | Hgt].
  - right. rewrite (std_undefined _ Hle). split; [ now left | reflexivity ].
  - destruct (std_defined series ltac:(lia)) as (s & m & Hs & Hm & _).
    rewrite Hs, Hm. unfold zscore_raw.
    destruct (Req_dec_T s 0) as [-> | Hnz].
    + right. split; [ now right | reflexivity ].
    + left. exists s, m. rewrite (fdiv_nonzero _ _ Hnz). repeat split; assumption.
Qed.

Lemma Forall2_map_right {A B : Type} (P : A -> B -> Prop) (f : A -> B) (l : list A) :
  (forall x, In x l -> P x (f x)) -> Forall2 P l (map f l).
Proof.
  induction l as [ | x l IH]; intros H; cbn [map]; constructor.
  - apply H. now left.
  - apply IH. intros y Hy. apply H. now right.
Qed.

Lemma score_tickers (df : list Row) : map sc_ticker (score df) = map row_ticker df.
Proof. unfold score. rewrite map_map. reflexivity. Qed.

(** The three z-score columns of the frame are the columns of step 3. *)
Lemma score_columns (df : list Row) :
  map sc_momentum_z (score df) = zscore_column (map row_momentum df)
  /\ map sc_quality_z (score df) = zscore_column (map row_quality df)
  /\ map sc_low_vol_z (score df) = zscore_column (map row_low_vol df).
Proof.
  unfold score, zscore_column. rewrite !map_map. cbn. repeat split.
Qed.

Lemma length_score (df : list Row) : length (score df) = length df.
Proof. unfold score. now rewrite length_map. Qed.

Lemma length_prepare (scores : list Agent5.FactorScores) :
  length (prepare scores) = length (filter scoreable scores).
Proof. rewrite prepare_retained. now rewrite length_map. Qed.

(** Every row built by steps 3 and 4 carries the cells of [zscore_cell] for
    its own values and the statistics of the frame. *)
Lemma score_rows (df : list Row) (sc : Scored) :
  In sc (score df) ->
  exists r, In r df
    /\ sc_ticker sc = row_ticker r
    /\ sc_momentum_z sc
       = zscore_cell (mean (map row_momentum df)) (std (map row_momentum df))
                     (row_momentum r)
    /\ sc_quality_z sc
       = zscore_cell (mean (map row_quality df)) (std (map row_quality df))
                     (row_quality r)
    /\ sc_low_vol_z sc
       = zscore_cell (mean (map row_low_vol df)) (std (map row_low_vol df))
                     (row_low_vol r)
    /\ sc_composite_score sc
       = composite (sc_momentum_z sc) (sc_quality_z sc) (sc_low_vol_z sc).
Proof.
  unfold score. rewrite in_map_iff. intros (r & <- & Hr).
  exists r. cbn. repeat split; auto.
Qed.

Lemma retained_neutrally_filled (scores : list Agent5.FactorScores) :
  Forall2 neutrally_filled (filter scoreable scores) (score (prepare scores)).
Proof.
  rewrite prepare_retained. unfold score. rewrite map_map.
  apply Forall2_map_right. intros s _.
  unfold neutrally_filled, composite. cbn.
  destruct s as [t m q v]; cbn.
  repeat split; try (intros ->; cbn; apply zscore_cell_missing).
  destruct m, q, v; cbn; rewrite ?zscore_cell_missing; lra.
Qed.

(** The frame of [rank_stocks], row by row. *)
Lemma map_prepare {B : Type} (f : Row -> B) (scores : list Agent5.FactorScores) :
  map f (prepare scores)
  = map (fun s => f (invert_low_vol (to_row s))) (filter scoreable scores).
Proof. now rewrite prepare_retained, map_map. Qed.

Lemma score_frame_rows (scores : list Agent5.FactorScores) :
  score (prepare scores) = map (frame_row scores) (filter scoreable scores).
Proof. unfold score. apply map_prepare. Qed.

Lemma frame_row_filled (scores : list Agent5.FactorScores)
    (s : Agent5.FactorScores) :
  neutrally_filled s (frame_row scores s).
Proof.
  unfold neutrally_filled, frame_row, composite.
  destruct s as [t m q v].
  cbn [sc_ticker sc_momentum_z sc_quality_z sc_low_vol_z sc_composite_score
       row_ticker row_momentum row_quality row_low_vol invert_low_vol to_row
       Agent5.ticker Agent5.momentum Agent5.quality Agent5.low_vol].
  repeat split; try (intros ->; cbn [invert]; apply zscore_cell_missing).
  destruct m, q, v; cbn [present invert]; rewrite ?zscore_cell_missing; lra.
Qed.

(** *** Steps 5 and 6 *)

Lemma head_nil {A : Type} (n : Z) : head n (@nil A) = [].
Proof. unfold head. destruct (0 <=? n)%Z; apply firstn_nil. Qed.

Lemma nth_error_head {A : Type} (n : Z) (l : list A) (i : nat) (x : A) :
  nth_error (head n l) i = Some x -> nth_error l i = Some x.
Proof.
  unfold head. destruct (0 <=? n)%Z; rewrite nth_error_firstn;
    destruct (Nat.ltb _ _); congruence.
Qed.

Lemma length_head {A : Type} (n : Z) (l : list A) :
  (0 <= n)%Z -> length (head n l) = Nat.min (Z.to_nat n) (length l).
Proof.
  intros Hn. unfold head.
  destruct (Z.leb_spec 0 n); [ apply length_firstn | lia ].
Qed.

Lemma head_all {A : Type} (n : Z) (l : list A) :
  (Z.of_nat (length l) <= n)%Z -> head n l = l.
Proof.
  intros Hn. unfold head.
  destruct (Z.leb_spec 0 n); [ apply firstn_all2; lia | lia ].
Qed.

Lemma nth_error_ranked (f : nat -> Z) (l : list Scored) (start i : nat) :
  nth_error (combine l (map f (seq start (length l)))) i
  = option_map (fun a => (a, f (start + i)%nat)) (nth_error l i).
Proof.
  revert start i. induction l as [ | a l IH]; intros start i.
  - now destruct i.
  - destruct i as [ | i]; cbn [length seq map combine nth_error option_map].
    + now rewrite Nat.add_0_r.
    + rewrite IH. now rewrite Nat.add_succ_r.
Qed.

Lemma nth_error_with_rank (l : list Scored) (i : nat) :
  nth_error (with_rank l) i
  = option_map (fun a => (a, (Z.of_nat i + 1)%Z)) (nth_error l i).
Proof. unfold with_rank. now rewrite nth_error_ranked. Qed.

Lemma length_with_rank (l : list Scored) : length (with_rank l) = length l.
Proof.
  unfold with_rank. rewrite length_combine, length_map, length_seq. lia.
Qed.

(** The frame keeps its number of rows through steps 3 to 5. *)
Create Rewrite HintDb frame_length.
#[local] Hint Rewrite length_with_rank length_score length_prepare : frame_length.

Lemma with_rank_rows (l : list Scored) : map fst (with_rank l) = l.
Proof.
  apply nth_error_ext. intros i.
  rewrite nth_error_map, nth_error_with_rank.
  now destruct (nth_error l i).
Qed.

Lemma rint_0 : rint 0 = 0%Z.
Proof.
  unfold rint. rewrite fp_R0.
  assert (H : Int_part 0 = 0%Z) by (symmetry; apply Int_part_spec; lra).
  rewrite H. destruct (Rlt_dec 0 (1 / 2)); [ reflexivity | lra ].
Qed.

Lemma round4_0 : round4 0 = 0.
Proof. unfold round4. rewrite Rmult_0_l, rint_0. lra. Qed.

Section WithSort.

(** Any sorting routine that meets the contract of
    [sort_values(..., ascending=False)]. *)
Variable sort_values : list Scored -> list Scored.
Hypothesis sort_values_sorts : sorts_descending sort_values.

Lemma sort_values_perm (l : list Scored) : Permutation l (sort_values l).
Proof. apply sort_values_sorts. Qed.

Lemma sort_values_nil : sort_values [] = [].
Proof. apply Permutation_nil, sort_values_perm. Qed.

Lemma length_sort_values (l : list Scored) : length (sort_values l) = length l.
Proof. symmetry. apply Permutation_length, sort_values_perm. Qed.

#[local] Hint Rewrite length_sort_values : frame_length.

(** The early returns of [rank_stocks] agree with its main path. *)
Lemma rank_stocks_unfold (scores : list Agent5.FactorScores) (top_n : option Z) :
  rank_stocks sort_values scores top_n
  = map to_ranked
      (head (effective_top_n top_n)
            (with_rank (sort_values (score (prepare scores))))).
Proof.
  assert (Hnil : map to_ranked
                   (head (effective_top_n top_n)
                         (with_rank (sort_values (score [])))) = []).
  { change (score []) with (@nil Scored). rewrite sort_values_nil.
    change (with_rank []) with (@nil (Scored * Z)). now rewrite head_nil. }
  unfold rank_stocks.
  destruct scores as [ | s l].
  - change (prepare []) with (@nil Row). now rewrite Hnil.
  - destruct (prepare (s :: l)); [ now rewrite Hnil | reflexivity ].
Qed.

Lemma rank_stocks_nth (scores : list Agent5.FactorScores) (top_n : option Z)
    (i : nat) (o : RankedStock) :
  nth_error (rank_stocks sort_values scores top_n) i = Some o ->
  exists sc, nth_error (sort_values (score (prepare scores))) i = Some sc
             /\ o = to_ranked (sc, (Z.of_nat i + 1)%Z).
Proof.
  rewrite rank_stocks_unfold, nth_error_map.
  destruct (nth_error (head _ _) i) as [[sc k] | ] eqn:E; [ | discriminate ].
  apply nth_error_head in E. rewrite nth_error_with_rank in E.
  destruct (nth_error (sort_values _) i) as [sc' | ]; [ | discriminate ].
  cbn in E. injection E as -> <-. intros [= <-]. eauto.
Qed.

Lemma rank_stocks_rows (scores : list Agent5.FactorScores) (top_n : option Z)
    (o : RankedStock) :
  In o (rank_stocks sort_values scores top_n) ->
  exists sc, In sc (score (prepare scores)) /\ o = to_ranked (sc, rank o).
Proof.
  intros Ho. apply In_nth_error in Ho. destruct Ho as [i Hi].
  destruct (rank_stocks_nth _ _ _ _ Hi) as (sc & Hsc & ->).
  exists sc. split; [ | reflexivity ].
  apply nth_error_In in Hsc.
  apply (Permutation_in _ (Permutation_sym (sort_values_perm _)) Hsc).
Qed.

Lemma length_rank_stocks (scores : list Agent5.FactorScores) (top_n : option Z) :
  (0 <= effective_top_n top_n)%Z ->
  length (rank_stocks sort_values scores top_n)
  = Nat.min (Z.to_nat (effective_top_n top_n)) (length (filter scoreable scores)).
Proof.
  intros Hn. rewrite rank_stocks_unfold, length_map, length_head by exact Hn.
  now autorewrite with frame_length.
Qed.

(** *** Missing factors *)

Lemma returned_as_frame_row (scores : list Agent5.FactorScores)
    (s : Agent5.FactorScores) (k : Z) :
  returned_as s (to_ranked (frame_row scores s, k)).
Proof.
  destruct (frame_row_filled scores s) as (Ht & Hm & Hq & Hv & Hc).
  unfold returned_as, to_ranked.
  cbn [ticker momentum_z quality_z low_vol_z rank fst snd].
  split; [ exact Ht | ].
  split; [ intros E; now rewrite (Hm E), round4_0 | ].
  split; [ intros E; now rewrite (Hq E), round4_0 | ].
  split; [ intros E; now rewrite (Hv E), round4_0 | ].
  exists (frame_row scores s). split; [ | reflexivity ].
  repeat split; assumption.
Qed.

(** Every entry of the result is the rounded row of a retained record. *)
Lemma rank_stocks_sources (scores : list Agent5.FactorScores) (top_n : option Z)
    (o : RankedStock) :
  In o (rank_stocks sort_values scores top_n) ->
  exists s, In s scores /\ scoreable s = true
            /\ o = to_ranked (frame_row scores s, rank o).
Proof.
  intros Ho. destruct (rank_stocks_rows _ _ _ Ho) as (sc & Hsc & Heq).
  rewrite score_frame_rows in Hsc. apply in_map_iff in Hsc.
  destruct Hsc as (s & <- & Hs). apply filter_In in Hs.
  exists s. tauto.
Qed.

(** When [top_n] covers the retained universe the result is the whole
    sorted frame. *)
Lemma rank_stocks_covering (scores : list Agent5.FactorScores) (top_n : option Z)
    (i : nat) (sc : Scored) :
  (Z.of_nat (length (filter scoreable scores)) <= effective_top_n top_n)%Z ->
  nth_error (sort_values (score (prepare scores))) i = Some sc ->
  nth_error (rank_stocks sort_values scores top_n) i
  = Some (to_ranked (sc, (Z.of_nat i + 1)%Z)).
Proof.
  intros Hn Hsc. rewrite rank_stocks_unfold, head_all.
  - now rewrite nth_error_map, nth_error_with_rank, Hsc.
  - now autorewrite with frame_length.
Qed.

(** An entry of the result has every row that sorts before it above it. *)
Lemma rank_stocks_above (scores : list Agent5.FactorScores) (top_n : option Z)
    (i j : nat) (sc : Scored) (o : RankedStock) :
  (i < j)%nat ->
  nth_error (rank_stocks sort_values scores top_n) j = Some o ->
  nth_error (sort_values (score (prepare scores))) i = Some sc ->
  nth_error (rank_stocks sort_values scores top_n) i
  = Some (to_ranked (sc, (Z.of_nat i + 1)%Z)).
Proof.
  intros Hij Ho Hsc. rewrite rank_stocks_unfold in Ho |- *.
  rewrite nth_error_map in Ho |- *. unfold head in Ho |- *.
  destruct (0 <=? effective_top_n top_n)%Z;
    rewrite nth_error_firstn in Ho |- *;
    match type of Ho with
    | context [Nat.ltb j ?m] =>
        destruct (Nat.ltb_spec j m); [ | discriminate Ho ];
        destruct (Nat.ltb_spec i m); [ | lia ]
    end;
    now rewrite nth_error_with_rank, Hsc.
Qed.

Lemma retained_returned (scores : list Agent5.FactorScores) (top_n : option Z)
    (s : Agent5.FactorScores) :
  (Z.of_nat (length (filter scoreable scores)) <= effective_top_n top_n)%Z ->
  In s scores -> scoreable s = true ->
  exists i, nth_error (sort_values (score (prepare scores))) i
            = Some (frame_row scores s)
    /\ nth_error (rank_stocks sort_values scores top_n) i
       = Some (to_ranked (frame_row scores s, (Z.of_nat i + 1)%Z)).
Proof.
  intros Hn Hin Hs.
  assert (Hrow : In (frame_row scores s) (sort_values (score (prepare scores)))).
  { apply (Permutation_in _ (sort_values_perm _)).
    rewrite score_frame_rows. apply in_map, filter_In. now split. }
  apply In_nth_error in Hrow. destruct Hrow as [i Hi].
  exists i. split; [ exact Hi | now apply rank_stocks_covering ].
Qed.

(** C1.  The frame that is normalised has exactly the tickers with at least
    one factor present, in input order, and its statistics are those of that
    retained universe: a ticker without any factor takes no part in them.
    Each retained ticker has z-score [0.0] for every factor it lacks and a
    composite equal to the weighted sum over the factors it has.  Every
    entry that [rank_stocks] returns is such a row of a retained ticker,
    rounded to four decimals, with [0.0] for each missing factor; the result
    has as many entries as [top_n] and the number of retained tickers
    allow; and when [top_n] covers the retained tickers, each of them is
    returned. *)
Theorem rank_stocks_drops_and_fills (scores : list Agent5.FactorScores)
    (top_n : option Z) :
  map sc_ticker (score (prepare scores))
  = map Agent5.ticker (filter scoreable scores)
  /\ score (prepare (filter scoreable scores)) = score (prepare scores)
  /\ Forall2 neutrally_filled (filter scoreable scores) (score (prepare scores))
  /\ (forall o, In o (rank_stocks sort_values scores top_n) ->
      exists sc, In sc (score (prepare scores)) /\ o = to_ranked (sc, rank o))
  /\ (forall o, In o (rank_stocks sort_values scores top_n) ->
      exists s, In s scores /\ scoreable s = true /\ returned_as s o)
  /\ ((0 <= effective_top_n top_n)%Z ->
      length (rank_stocks sort_values scores top_n)
      = Nat.min (Z.to_nat (effective_top_n top_n))
                (length (filter scoreable scores)))
  /\ ((Z.of_nat (length (filter scoreable scores)) <= effective_top_n top_n)%Z ->
      forall s, In s scores -> scoreable s = true ->
        exists o, In o (rank_stocks sort_values scores top_n) /\ returned_as s o).
Proof.
  split; [ | split; [ | split; [ | split; [ | split; [ | split ] ] ] ] ].
  - rewrite score_tickers, prepare_retained, map_map. reflexivity.
  - now rewrite prepare_after_drop.
  - apply retained_neutrally_filled.
  - apply rank_stocks_rows.
  - intros o Ho. destruct (rank_stocks_sources _ _ _ Ho) as (s & Hin & Hs & Heq).
    exists s. split; [ exact Hin | split; [ exact Hs | ] ].
    rewrite Heq. apply returned_as_frame_row.
  - apply length_rank_stocks.
  - intros Hn s Hin Hs.
    destruct (retained_returned _ _ _ Hn Hin Hs) as (i & _ & Hi).
    eexists. split; [ eapply nth_error_In, Hi | apply returned_as_frame_row ].
Qed.

(** *** Edge cases *)

Lemma prepare_none (scores : list Agent5.FactorScores) :
  (forall s, In s scores -> scoreable s = false) -> prepare scores = [].
Proof.
  intros Hnone. rewrite prepare_retained.
  replace (filter scoreable scores) with (@nil Agent5.FactorScores); [ reflexivity | ].
  symmetry. induction scores as [ | s l IH]; [ reflexivity | ].
  cbn [filter]. rewrite (Hnone s) by now left.
  apply IH. intros s' Hs'. apply Hnone. now right.
Qed.

Lemma score_single (s : Agent5.FactorScores) :
  scoreable s = true ->
  score (prepare [s]) = [mkScored (Agent5.ticker s) 0 0 0 (composite 0 0 0)].
Proof.
  intros Hs. rewrite prepare_retained. cbn [filter]. rewrite Hs.
  unfold score. cbn [map].
  assert (Hz : forall v w : option R, zscore_cell (mean [v]) (std [v]) w = 0).
  { intros v w. apply zscore_cell_degenerate. left. apply std_undefined.
    destruct v; cbn; lia. }
  cbn [row_momentum row_quality row_low_vol row_ticker invert_low_vol to_row].
  now rewrite !Hz.
Qed.

Lemma composite_0 : composite 0 0 0 = 0.
Proof. unfold composite. lra. Qed.

(** C8.  An empty input gives an empty list, and so does a universe in which
    no ticker has a factor present.  When [top_n] is at least the number of
    retained tickers the result has exactly that many entries, and its
    tickers are the retained ones.  A single scoreable ticker with
    [top_n = 3] gives exactly one entry, of rank 1 (all its z-scores and its
    composite being [0.0]); a single ticker without any factor gives none. *)
Theorem rank_stocks_edge_cases (scores : list Agent5.FactorScores)
    (top_n : option Z) (s : Agent5.FactorScores) :
  rank_stocks sort_values [] top_n = []
  /\ ((forall s', In s' scores -> scoreable s' = false) ->
      rank_stocks sort_values scores top_n = [])
  /\ ((Z.of_nat (length (filter scoreable scores)) <= effective_top_n top_n)%Z ->
      length (rank_stocks sort_values scores top_n)
      = length (filter scoreable scores)
      /\ Permutation (map ticker (rank_stocks sort_values scores top_n))
                     (map Agent5.ticker (filter scoreable scores)))
  /\ (scoreable s = true ->
      rank_stocks sort_values [s] (Some 3%Z)
      = [mkRankedStock (Agent5.ticker s) 0 0 0 0 1])
  /\ (scoreable s = false -> rank_stocks sort_values [s] (Some 3%Z) = []).
Proof.
  assert (Hnone : forall l n, (forall s', In s' l -> scoreable s' = false) ->
                              rank_stocks sort_values l n = []).
  { intros l n Hl. unfold rank_stocks. rewrite (prepare_none l Hl).
    now destruct l. }
  split; [ reflexivity | split; [ apply Hnone | split; [ | split ] ] ].
  - intros Hn.
    assert (Hall : head (effective_top_n top_n)
                     (with_rank (sort_values (score (prepare scores))))
                   = with_rank (sort_values (score (prepare scores)))).
    { apply head_all. now autorewrite with frame_length. }
    rewrite rank_stocks_unfold, Hall. split.
    + rewrite length_map. now autorewrite with frame_length.
    + rewrite map_map.
      change (fun x => ticker (to_ranked x)) with (fun x : Scored * Z => sc_ticker (fst x)).
      rewrite <- (map_map fst sc_ticker), with_rank_rows.
      rewrite <- (map_map (fun s => invert_low_vol (to_row s)) row_ticker).
      rewrite <- prepare_retained, <- score_tickers.
      apply Permutation_map, Permutation_sym, sort_values_perm.
  - intros Hs. rewrite rank_stocks_unfold, (score_single s Hs).
    pose proof (sort_values_perm [mkScored (Agent5.ticker s) 0 0 0 (composite 0 0 0)])
      as Hp.
    apply Permutation_length_1_inv in Hp. rewrite Hp.
    set (x := mkScored (Agent5.ticker s) 0 0 0 (composite 0 0 0)).
    change (map to_ranked (head (effective_top_n (Some 3%Z)) (with_rank [x])))
      with [to_ranked (x, 1%Z)].
    unfold to_ranked, x.
    cbn [fst snd sc_ticker sc_composite_score sc_momentum_z sc_quality_z sc_low_vol_z].
    now rewrite composite_0, round4_0.
  - intros Hs. apply Hnone. intros s' [<- | []]. exact Hs.
Qed.

(** C10.  A [top_n] of [0] and a [top_n] of [None] are both replaced by
    [TOP_N_PER_SECTOR]: the result is that of [top_n = TOP_N_PER_SECTOR],
    with up to three entries, and not empty when some ticker has a factor
    present. *)
Theorem rank_stocks_falsy_top_n (scores : list Agent5.FactorScores) :
  rank_stocks sort_values scores (Some 0%Z)
  = rank_stocks sort_values scores (Some TOP_N_PER_SECTOR)
  /\ rank_stocks sort_values scores None
     = rank_stocks sort_values scores (Some TOP_N_PER_SECTOR)
  /\ length (rank_stocks sort_values scores (Some 0%Z))
     = Nat.min 3 (length (filter scoreable scores))
  /\ (filter scoreable scores <> [] ->
      rank_stocks sort_values scores (Some 0%Z) <> []).
Proof.
  assert (Hlen : length (rank_stocks sort_values scores (Some 0%Z))
                 = Nat.min 3 (length (filter scoreable scores))).
  { rewrite length_rank_stocks; [ reflexivity | cbn; unfold TOP_N_PER_SECTOR; lia ]. }
  repeat split; try exact Hlen.
  intros Hne Hempty. rewrite Hempty in Hlen. cbn [length] in Hlen.
  destruct (filter scoreable scores); [ now apply Hne | cbn in Hlen; lia ].
Qed.

(** *** Order and rank *)

Lemma descending_nth (l : list Scored) (i j : nat) (a b : Scored) :
  descending l -> (i < j)%nat ->
  nth_error l i = Some a -> nth_error l j = Some b ->
  sc_composite_score b <= sc_composite_score a.
Proof.
  unfold descending. intros Hs. revert i j.
  induction Hs as [ | x l Hl IH Hx]; intros i j Hij Hi Hj.
  - now destruct i.
  - destruct j as [ | j]; [ lia | ]. cbn in Hj.
    destruct i as [ | i].
    + cbn in Hi. injection Hi as <-.
      rewrite Forall_forall in Hx. apply Hx. eapply nth_error_In, Hj.
    + cbn in Hi. apply (IH i j); [ lia | assumption | assumption ].
Qed.

End WithSort.

(** *** Identical values *)

(** In exact arithmetic three identical momenta have deviation zero, the
    guard of step 3 fires and every momentum z-score is [0.0]. *)
Lemma identical_momenta_exact :
  std (map row_momentum (prepare identical_momenta)) = Some 0
  /\ map sc_momentum_z (score (prepare identical_momenta)) = [0; 0; 0].
Proof.
  assert (Hstd : std (map row_momentum (prepare identical_momenta)) = Some 0).
  { apply std_identical; [ cbn; lia | ].
    intros x y Hx Hy. cbn in Hx, Hy.
    destruct Hx as [<- | [<- | [<- | []]]], Hy as [<- | [<- | [<- | []]]];
      reflexivity. }
  split; [ exact Hstd | ].
  destruct (score_columns (prepare identical_momenta)) as (-> & _ & _).
  unfold zscore_column. rewrite Hstd.
  change (map row_momentum (prepare identical_momenta))
    with [Some (1 / 10); Some (1 / 10); Some (1 / 10)].
  cbn [map]. rewrite !zscore_cell_degenerate by now right. reflexivity.
Qed.

(** *** The theorems above at the insertion sort *)

Lemma rank_stocks_drops_and_fills_witness :
  sorts_descending sort_by_insertion
  /\ map sc_ticker (score (prepare partial_universe)) = ["PARTIAL"; "FULL"]%string
  /\ Forall2 neutrally_filled (filter scoreable partial_universe)
             (score (prepare partial_universe))
  /\ length (rank_stocks sort_by_insertion partial_universe (Some 3%Z)) = 2%nat
  /\ exists o, In o (rank_stocks sort_by_insertion partial_universe (Some 3%Z))
               /\ ticker o = "PARTIAL"%string /\ quality_z o = 0.
Proof.
  pose proof (rank_stocks_drops_and_fills sort_by_insertion
                sort_by_insertion_sorts partial_universe (Some 3%Z))
    as (Ht & _ & Hf & _ & _ & Hlen & Hall).
  split; [ apply sort_by_insertion_sorts | ].
  split; [ exact Ht | split; [ exact Hf | split ] ].
  - apply Hlen. cbn. lia.
  - destruct (Hall ltac:(cbn; lia)
                (make_score "PARTIAL" (Some (3 / 10)) None (Some (15 / 100)))
                ltac:(cbn; auto) eq_refl)
      as (o & Ho & Hticker & _ & Hq & _).
    exists o. split; [ exact Ho | split; [ exact Hticker | now apply Hq ] ].
Defined.

Lemma rank_stocks_edge_cases_witness :
  sorts_descending sort_by_insertion
  /\ scoreable only = true
  /\ rank_stocks sort_by_insertion [only] (Some 3%Z)
     = [mkRankedStock "ONLY" 0 0 0 0 1].
Proof.
  split; [ apply sort_by_insertion_sorts | split; [ reflexivity | ] ].
  apply (rank_stocks_edge_cases sort_by_insertion
           sort_by_insertion_sorts [] None only).
  reflexivity.
Defined.

Lemma rank_stocks_falsy_top_n_witness :
  sorts_descending sort_by_insertion
  /\ filter scoreable partial_universe <> []
  /\ length (rank_stocks sort_by_insertion partial_universe (Some 0%Z)) = 2%nat
  /\ rank_stocks sort_by_insertion partial_universe (Some 0%Z) <> [].
Proof.
  pose proof (rank_stocks_falsy_top_n sort_by_insertion
                sort_by_insertion_sorts partial_universe)
    as (_ & _ & Hlen & Hne).
  assert (Hsome : filter scoreable partial_universe <> []) by discriminate.
  split; [ apply sort_by_insertion_sorts | ].
  split; [ exact Hsome | split; [ exact Hlen | exact (Hne Hsome) ] ].
Defined.

End Ranking.


(** ** The guard of step 3 on binary64 numbers *)

Module RankingBinary64.
Import PrimFloat.

(** C3.  The guard [std == 0 or pd.isna(std)] is taken on doubles, and
    identical values need not have a deviation of zero there.  For three
    tickers whose only factor is a momentum of 0.1 the mean of the column is
    0.10000000000000002 and its deviation 1.6996749443881478e-17, neither
    zero nor NaN: the guard does not fire, and every ticker gets the
    momentum z-score -0.8164965809277261 and the composite
    -0.3265986323710905, where a neutral [0.0] is due.  In exact arithmetic
    the deviation of that column is zero and every z-score [0.0]. *)
Theorem identical_values_not_neutral :
  let column :=
    map Binary64.row_momentum (Binary64.prepare Binary64.identical_momenta) in
  let frame := Binary64.score (Binary64.prepare Binary64.identical_momenta) in
  column = [0x1.999999999999ap-4; 0x1.999999999999ap-4; 0x1.999999999999ap-4]%float
  /\ Binary64.mean column = 0x1.999999999999bp-4%float
  /\ Binary64.std column = 0x1.3988e1409212ep-56%float
  /\ (Binary64.std column =? 0)%float || is_nan (Binary64.std column) = false
  /\ map Binary64.sc_ticker frame = ["A"; "B"; "C"]%string
  /\ map Binary64.sc_momentum_z frame
     = [-0x1.a20bd700c2c3fp-1; -0x1.a20bd700c2c3fp-1; -0x1.a20bd700c2c3fp-1]%float
  /\ map Binary64.sc_composite_score frame
     = [-0x1.4e6fdf33cf033p-2; -0x1.4e6fdf33cf033p-2; -0x1.4e6fdf33cf033p-2]%float
  /\ Pandas.std (map Agent6.row_momentum (Agent6.prepare Examples.identical_momenta))
     = Some 0
  /\ map Agent6.sc_momentum_z
         (Agent6.score (Agent6.prepare Examples.identical_momenta))
     = [0; 0; 0].
Proof.
  cbv zeta.
  repeat (split; [ vm_compute; reflexivity | ]).
  exact Ranking.identical_momenta_exact.
Qed.

End RankingBinary64.

(** * Further properties *)

(** ** The hard screener over a universe *)

Module ScreenerUniverse.
Import Settings Provider Agent4 ScreenSpec Examples.

Lemma screen_single_passes (t : string) (dp : DataProvider) :
  passed (_screen_single t dp) = true
  <-> exists f, get_fundamentals dp t = Ok f /\ meets_thresholds f.
Proof.
  unfold _screen_single, meets_thresholds.
  destruct (get_fundamentals dp t) as [f | e].
  2:{ split; [ discriminate | intros (f & Hf & _); discriminate ]. }
  split.
  - intros Hp. exists f. split; [ reflexivity | ].
    destruct (price f) as [p | ]; [ | discriminate ].
    destruct (Rlt_dec p MIN_PRICE); [ discriminate | ].
    destruct (market_cap f) as [m | ]; [ | discriminate ].
    destruct (Rlt_dec m MIN_MARKET_CAP); [ discriminate | ].
    destruct (avg_daily_volume f) as [v | ]; [ | discriminate ].
    destruct (Rlt_dec v MIN_AVG_DAILY_VOLUME_USD); [ discriminate | ].
    repeat split; try (eexists; split; [ reflexivity | lra ]).
    intros d Hd. rewrite Hd in Hp.
    destruct (Rgt_dec d MAX_DEBT_TO_EQUITY); [ discriminate | lra ].
  - intros (f' & [= <-] & (p & Hp & Hpge) & (m & Hm & Hmge) & (v & Hv & Hvge) & Hd).
    rewrite Hp, Hm, Hv.
    destruct (Rlt_dec p MIN_PRICE); [ lra | ].
    destruct (Rlt_dec m MIN_MARKET_CAP); [ lra | ].
    destruct (Rlt_dec v MIN_AVG_DAILY_VOLUME_USD); [ lra | ].
    destruct (debt_to_equity f) as [d | ]; [ | reflexivity ].
    specialize (Hd d eq_refl).
    destruct (Rgt_dec d MAX_DEBT_TO_EQUITY); [ lra | reflexivity ].
Qed.

Lemma passed_tickers (tickers : list string) (dp : DataProvider) :
  fst (screen_universe tickers dp)
  = filter (fun t => passed (_screen_single t dp)) tickers.
Proof.
  unfold screen_universe. cbn [fst].
  induction tickers as [ | t l IH]; [ reflexivity | ].
  cbn [map filter].
  destruct (passed (_screen_single t dp)); [ | exact IH ].
  cbn [map]. now rewrite IH, Screener.screen_single_ticker.
Qed.

(** X1.  [screen_universe] returns the tickers that pass in their input
    order, and one audit record per input ticker, in order.  A ticker is among
    the passed ones exactly when it is in the input, its fundamentals were
    fetched, and every threshold is met, each bound being inclusive. *)
Theorem screen_universe_passed (tickers : list string) (dp : DataProvider) :
  fst (screen_universe tickers dp)
  = filter (fun t => passed (_screen_single t dp)) tickers
  /\ map ticker (snd (screen_universe tickers dp)) = tickers
  /\ (forall t, In t (fst (screen_universe tickers dp))
      <-> In t tickers
          /\ exists f, get_fundamentals dp t = Ok f /\ meets_thresholds f).
Proof.
  split; [ apply passed_tickers | split ].
  - unfold screen_universe. cbn [snd]. rewrite map_map.
    induction tickers as [ | t l IH]; [ reflexivity | ].
    cbn [map]. now rewrite IH, Screener.screen_single_ticker.
  - intros t. rewrite passed_tickers, filter_In, screen_single_passes. reflexivity.
Qed.

(** The characterisation on a one-ticker universe at the four bounds. *)
Lemma screen_universe_passed_witness :
  meets_thresholds at_the_bounds
  /\ In "EDGE"%string
        (fst (screen_universe ["EDGE"; "UNKN"]%string (mock "EDGE" at_the_bounds))).
Proof.
  assert (H : meets_thresholds at_the_bounds).
  { unfold meets_thresholds, at_the_bounds. cbn.
    unfold MIN_PRICE, MIN_MARKET_CAP, MIN_AVG_DAILY_VOLUME_USD, MAX_DEBT_TO_EQUITY.
    repeat split; try (eexists; split; [ reflexivity | lra ]).
    intros d [= <-]. lra. }
  split; [ exact H | ].
  apply (screen_universe_passed ["EDGE"; "UNKN"]%string (mock "EDGE" at_the_bounds)).
  split; [ now left | ]. exists at_the_bounds. split; [ reflexivity | exact H ].
Defined.

End ScreenerUniverse.

(** ** More on the factor engine *)

Module FactorsMore.
Import Settings Provider Pandas Agent5 FactorSpec Rescale Examples.

(** *** Quality *)

Lemma clip_monotone (lo hi x y : R) :
  lo <= hi -> x <= y -> clip lo hi x <= clip lo hi y.
Proof.
  intros Hlohi Hxy. unfold clip.
  destruct (Rlt_dec x lo), (Rlt_dec y lo), (Rlt_dec hi x), (Rlt_dec hi y); lra.
Qed.

Lemma roe_component_monotone (x y : R) :
  x <= y -> roe_component x <= roe_component y.
Proof.
  intros Hxy. unfold roe_component, rescale.
  pose proof (clip_monotone (- (1 / 2)) 1 x y ltac:(lra) Hxy).
  replace (1 - - (1 / 2)) with (3 / 2) by lra. lra.
Qed.

Lemma dte_component_antitone (x y : R) :
  x <= y -> dte_component y <= dte_component x.
Proof.
  intros Hxy. unfold dte_component, rescale.
  pose proof (clip_monotone 0 3 x y ltac:(lra) Hxy).
  replace (3 - 0) with 3 by lra. lra.
Qed.

Lemma arithmetic_mean_1 (x : R) : arithmetic_mean [x] = x.
Proof. unfold arithmetic_mean. cbn. lra. Qed.

Lemma arithmetic_mean_2 (x y : R) : arithmetic_mean [x; y] = (x + y) / 2.
Proof. unfold arithmetic_mean. cbn. lra. Qed.

(** X2.  Quality never falls when ROE rises and never rises when
    debt-to-equity rises, the other input being the same (present or
    absent). *)
Theorem compute_quality_monotone (f : Fundamentals) (x y : R) :
  x <= y ->
  (exists q q',
      _compute_quality (with_return_on_equity f x) = Some q
      /\ _compute_quality (with_return_on_equity f y) = Some q'
      /\ q <= q')
  /\ (exists q q',
         _compute_quality (with_debt_to_equity f x) = Some q
         /\ _compute_quality (with_debt_to_equity f y) = Some q'
         /\ q' <= q).
Proof.
  intros Hxy.
  pose proof (roe_component_monotone x y Hxy).
  pose proof (dte_component_antitone x y Hxy).
  rewrite !Factors.compute_quality_cases. cbn.
  split.
  - destruct (debt_to_equity f) as [d | ]; eexists _, _;
      (split; [ reflexivity | split; [ reflexivity | ] ]);
      rewrite ?arithmetic_mean_1, ?arithmetic_mean_2; lra.
  - destruct (return_on_equity f) as [r | ]; eexists _, _;
      (split; [ reflexivity | split; [ reflexivity | ] ]);
      rewrite ?arithmetic_mean_1, ?arithmetic_mean_2; lra.
Qed.

(** Monotonicity between an ROE of 10% and one of 30%, and between a
    debt-to-equity of 0.5 and one of 2.8. *)
Lemma compute_quality_monotone_witness :
  (exists q q',
      _compute_quality (with_return_on_equity GOOD_FUNDAMENTALS (1 / 10)) = Some q
      /\ _compute_quality (with_return_on_equity GOOD_FUNDAMENTALS (3 / 10)) = Some q'
      /\ q <= q').
Proof.
  apply (compute_quality_monotone GOOD_FUNDAMENTALS (1 / 10) (3 / 10)). lra.
Defined.

(** *** Momentum *)

Lemma dropna_app (a b : Series) : dropna (a ++ b) = dropna a ++ dropna b.
Proof.
  induction a as [ | [x | ] a IH]; cbn; [ reflexivity | now rewrite IH | exact IH ].
Qed.

Lemma closes_app (older recent : list Bar) :
  dropna (map Provider.close (older ++ recent))
  = dropna (map Provider.close older) ++ dropna (map Provider.close recent).
Proof. now rewrite map_app, dropna_app. Qed.

(** A position at least [length b + 1] from the end of [a ++ b] is a
    position of [a]. *)
Lemma iloc_app_older (a b : list R) (k : Z) :
  (Z.of_nat (length b) < k)%Z ->
  iloc (a ++ b) (- k)
  = if (k <=? Z.of_nat (length a + length b))%Z
    then nth_error a (Z.to_nat (Z.of_nat (length a + length b) - k))
    else None.
Proof.
  intros Hk. unfold iloc. rewrite length_app.
  destruct (Z.leb_spec 0 (- k)); [ lia | ].
  rewrite Z.opp_involutive.
  destruct (Z.leb_spec k (Z.of_nat (length a + length b))); [ | reflexivity ].
  rewrite nth_error_app1 by lia. f_equal.
Qed.

(** X3.  Momentum does not look at the most recent bars: two histories that
    share their older part and differ only in their last (at most 20) valid
    closes have the same momentum. *)
Theorem compute_momentum_skips_recent (older recent recent' : list Bar) :
  length (dropna (map Provider.close recent))
  = length (dropna (map Provider.close recent')) ->
  (Z.of_nat (length (dropna (map Provider.close recent)))
   < MOMENTUM_SHORT_WINDOW_DAYS)%Z ->
  _compute_momentum (older ++ recent) = _compute_momentum (older ++ recent').
Proof.
  unfold MOMENTUM_SHORT_WINDOW_DAYS. intros Hlen Hshort.
  unfold _compute_momentum. rewrite !closes_app, !length_app.
  unfold MOMENTUM_LONG_WINDOW_DAYS, MOMENTUM_SHORT_WINDOW_DAYS.
  rewrite !iloc_app_older by lia. now rewrite <- Hlen.
Qed.

Lemma compute_momentum_skips_recent_witness :
  _compute_momentum (rising_prices ++ [bar_of_close 1])
  = _compute_momentum (rising_prices ++ [bar_of_close 1000]).
Proof.
  apply compute_momentum_skips_recent; [ reflexivity | ].
  cbn. unfold MOMENTUM_SHORT_WINDOW_DAYS. lia.
Defined.

Lemma momentum_present (prices : list Bar) :
  (MOMENTUM_LONG_WINDOW_DAYS
   <= Z.of_nat (length (dropna (map Provider.close prices))))%Z ->
  (forall x, In x (dropna (map Provider.close prices)) -> 0 < x) ->
  exists m, _compute_momentum prices = Some m.
Proof.
  unfold MOMENTUM_LONG_WINDOW_DAYS. intros Hlen Hpos. unfold _compute_momentum.
  set (close := dropna (map Provider.close prices)) in *.
  unfold MOMENTUM_LONG_WINDOW_DAYS, MOMENTUM_SHORT_WINDOW_DAYS.
  destruct (Z.ltb_spec (Z.of_nat (length close)) 252); [ lia | ].
  destruct (Factors.iloc_from_end close 252 ltac:(lia)) as [Hl Hl'].
  destruct (Factors.iloc_from_end close 21 ltac:(lia)) as [Hs Hs'].
  destruct (Factors.nth_error_in_range close (length close - Z.to_nat 252) ltac:(lia))
    as [pl Hpl].
  destruct (Factors.nth_error_in_range close (length close - Z.to_nat 21) ltac:(lia))
    as [ps Hps].
  rewrite Hl, Hs, Hl', Hs', Hpl, Hps.
  pose proof (Hpos pl (nth_error_In _ _ Hpl)).
  destruct (Rle_dec pl 0); [ lra | eauto ].
Qed.

(** X17.  On a history whose valid closes are all positive, momentum is a
    return above -100%: whenever it is present it is greater than -1. *)
Theorem compute_momentum_lower_bound (prices : list Bar) (m : R) :
  (forall x, In x (dropna (map Provider.close prices)) -> 0 < x) ->
  _compute_momentum prices = Some m ->
  -1 < m.
Proof.
  intros Hpos. unfold _compute_momentum.
  set (close := dropna (map Provider.close prices)) in *.
  destruct (Z.ltb_spec (Z.of_nat (length close)) MOMENTUM_LONG_WINDOW_DAYS);
    [ discriminate | ].
  unfold MOMENTUM_LONG_WINDOW_DAYS, MOMENTUM_SHORT_WINDOW_DAYS in *.
  destruct (Factors.iloc_from_end close 252 ltac:(lia)) as [Hl Hl'].
  destruct (Factors.iloc_from_end close 21 ltac:(lia)) as [Hs Hs'].
  rewrite Hl, Hs, Hl', Hs'.
  destruct (nth_error close (length close - Z.to_nat 252)) as [pl | ] eqn:Hpl;
    [ | discriminate ].
  destruct (nth_error close (length close - Z.to_nat 21)) as [ps | ] eqn:Hps;
    [ | discriminate ].
  pose proof (Hpos pl (nth_error_In _ _ Hpl)).
  pose proof (Hpos ps (nth_error_In _ _ Hps)).
  destruct (Rle_dec pl 0); [ discriminate | ].
  intros [= <-].
  replace ((ps - pl) / pl) with (ps / pl - 1) by (field; lra).
  assert (0 < ps / pl) by (apply Rdiv_lt_0_compat; assumption). lra.
Qed.

Lemma falling_closes_positive (x : R) : In x falling_closes -> 0 < x.
Proof.
  unfold falling_closes. intros Hx. apply in_map_iff in Hx.
  destruct Hx as (n & <- & Hn). apply in_seq in Hn. apply lt_0_INR. lia.
Qed.

Lemma compute_momentum_lower_bound_witness :
  exists m, _compute_momentum falling_prices = Some m /\ -1 < m.
Proof.
  assert (Hpos : forall x, In x (dropna (map Provider.close falling_prices)) -> 0 < x).
  { unfold falling_prices. rewrite Factors.dropna_bar_of_close.
    apply falling_closes_positive. }
  destruct (momentum_present falling_prices) as [m Hm].
  - unfold falling_prices. rewrite Factors.dropna_bar_of_close.
    unfold falling_closes, MOMENTUM_LONG_WINDOW_DAYS.
    rewrite length_map, length_seq. lia.
  - exact Hpos.
  - exists m. split; [ exact Hm | ].
    apply (compute_momentum_lower_bound falling_prices m Hpos Hm).
Defined.

(** *** Rescaled prices *)

Lemma closes_scaled (k : R) (prices : list Bar) :
  dropna (map Provider.close (map (scale_bar k) prices))
  = map (Rmult k) (dropna (map Provider.close prices)).
Proof.
  induction prices as [ | b l IH]; [ reflexivity | ].
  cbn [map]. unfold scale_bar at 1. cbn [Provider.close].
  destruct (Provider.close b); cbn [option_map dropna map]; now rewrite IH.
Qed.

Lemma iloc_map (f : R -> R) (l : list R) (i : Z) :
  iloc (map f l) i = option_map f (iloc l i).
Proof.
  unfold iloc. rewrite length_map.
  destruct (0 <=? i)%Z; [ apply nth_error_map | ].
  destruct (- i <=? Z.of_nat (length l))%Z; [ apply nth_error_map | reflexivity ].
Qed.

Lemma pct_scaled (k prev cur : R) : k <> 0 -> pct (k * prev) (k * cur) = pct prev cur.
Proof.
  intros Hk. unfold pct.
  destruct (Req_dec_T prev 0) as [-> | Hp].
  - rewrite Rmult_0_r. destruct (Req_dec_T 0 0); [ | contradiction ].
    destruct (Req_dec_T cur 0) as [-> | Hc].
    + rewrite Rmult_0_r. destruct (Req_dec_T 0 0); [ reflexivity | contradiction ].
    + destruct (Req_dec_T (k * cur) 0) as [E | ]; [ | reflexivity ].
      apply Rmult_integral in E. destruct E; contradiction.
  - destruct (Req_dec_T (k * prev) 0) as [E | ].
    + apply Rmult_integral in E. destruct E; contradiction.
    + f_equal. field. split; assumption.
Qed.

Lemma pct_change_scaled (k : R) (l : list R) :
  k <> 0 -> pct_change (map (Rmult k) l) = pct_change l.
Proof.
  intros Hk. destruct l as [ | c l]; [ reflexivity | ].
  cbn [map pct_change]. f_equal. revert c.
  induction l as [ | d l IH]; intros c; [ reflexivity | ].
  cbn [map pct_change_from]. now rewrite pct_scaled, IH.
Qed.

Lemma iloc_tail_map (f : R -> R) (l : list R) (k : Z) :
  iloc_tail (map f l) k = map f (iloc_tail l k).
Proof. unfold iloc_tail. now rewrite length_map, skipn_map. Qed.

(** X4.  Multiplying every price of a history by the same positive factor
    changes neither its momentum nor its volatility. *)
Theorem factors_scale_invariant (k : R) (prices : list Bar) :
  0 < k ->
  _compute_momentum (map (scale_bar k) prices) = _compute_momentum prices
  /\ _compute_volatility (map (scale_bar k) prices) = _compute_volatility prices.
Proof.
  intros Hk. split.
  - unfold _compute_momentum. rewrite closes_scaled, length_map, !iloc_map.
    destruct (Z.ltb _ _); [ reflexivity | ].
    destruct (iloc _ (- MOMENTUM_LONG_WINDOW_DAYS)) as [p12 | ]; [ | reflexivity ].
    destruct (iloc _ (- MOMENTUM_SHORT_WINDOW_DAYS)) as [p1 | ]; [ | reflexivity ].
    cbn [option_map].
    destruct (Rle_dec p12 0), (Rle_dec (k * p12) 0); try reflexivity; try nra.
    f_equal. field. split; lra.
  - unfold _compute_volatility.
    rewrite closes_scaled, length_map, iloc_tail_map, pct_change_scaled by lra.
    reflexivity.
Qed.

Lemma factors_scale_invariant_witness :
  _compute_momentum (map (scale_bar 2) rising_prices) = _compute_momentum rising_prices.
Proof. apply (factors_scale_invariant 2 rising_prices). lra. Defined.

(** *** Volatility *)

Lemma iloc_tail_app (a b : list R) (k : Z) :
  (k <= Z.of_nat (length b))%Z -> iloc_tail (a ++ b) k = iloc_tail b k.
Proof.
  intros Hk. unfold iloc_tail. rewrite length_app, skipn_app.
  rewrite skipn_all2 by lia. cbn [app]. f_equal. lia.
Qed.

(** X5.  Volatility reads the last 63 valid closes only: bars older than a
    recent part that already holds 63 valid closes have no effect, whatever
    they contain. *)
Theorem compute_volatility_ignores_older (older recent : list Bar) :
  (VOLATILITY_WINDOW_DAYS
   <= Z.of_nat (length (dropna (map Provider.close recent))))%Z ->
  _compute_volatility (older ++ recent) = _compute_volatility recent.
Proof.
  intros Hlen. unfold _compute_volatility.
  rewrite closes_app, length_app, iloc_tail_app by exact Hlen.
  destruct (Z.ltb_spec (Z.of_nat (length (dropna (map Provider.close recent))))
              VOLATILITY_WINDOW_DAYS); [ lia | ].
  destruct (Z.ltb_spec
              (Z.of_nat (length (dropna (map Provider.close older))
                         + length (dropna (map Provider.close recent))))
              VOLATILITY_WINDOW_DAYS); [ lia | reflexivity ].
Qed.

Lemma flat_closes : dropna (map Provider.close flat_prices) = repeat 100 63.
Proof. unfold flat_prices. apply Factors.dropna_bar_of_close. Qed.

Lemma compute_volatility_ignores_older_witness :
  _compute_volatility (rising_prices ++ flat_prices) = _compute_volatility flat_prices.
Proof.
  apply compute_volatility_ignores_older.
  rewrite flat_closes, repeat_length. unfold VOLATILITY_WINDOW_DAYS. lia.
Defined.

Lemma sum_nonneg (f : R -> R) (v : list R) :
  (forall x, 0 <= f x) -> 0 <= sum (map f v).
Proof.
  intros Hf. induction v as [ | x v IH]; cbn [map sum fold_right]; [ lra | ].
  fold (sum (map f v)). specialize (Hf x). lra.
Qed.

Lemma sum_nonneg_zero (f : R -> R) (v : list R) :
  (forall x, 0 <= f x) -> sum (map f v) = 0 -> forall x, In x v -> f x = 0.
Proof.
  intros Hf. induction v as [ | y v IH]; intros Hs x Hx; [ destruct Hx | ].
  cbn [map sum fold_right] in Hs. fold (sum (map f v)) in Hs.
  pose proof (sum_nonneg f v Hf). pose proof (Hf y).
  destruct Hx as [<- | Hx]; [ lra | apply IH; [ lra | exact Hx ] ].
Qed.

(** The sample deviation of two or more values is zero exactly when they are
    all equal. *)
Lemma sample_std_zero (v : list R) :
  (2 <= length v)%nat ->
  (sample_std v = 0 <-> forall x y, In x v -> In y v -> x = y).
Proof.
  intros Hlen. split.
  - unfold sample_std. intros Hz.
    assert (Hn : 0 < INR (length v) - 1).
    { pose proof (lt_INR 1 (length v) ltac:(lia)) as H1.
      change (INR 1) with 1 in H1. lra. }
    assert (Hs : 0 <= sum (map (fun x => (x - arithmetic_mean v) ^ 2) v)).
    { apply sum_nonneg. intros x. apply pow2_ge_0. }
    apply sqrt_eq_0 in Hz.
    2:{ apply Rmult_le_pos; [ exact Hs | left; now apply Rinv_0_lt_compat ]. }
    assert (Hz' : sum (map (fun x => (x - arithmetic_mean v) ^ 2) v) = 0).
    { apply Rmult_integral in Hz. destruct Hz as [Hz | Hz]; [ exact Hz | ].
      pose proof (Rinv_0_lt_compat _ Hn). lra. }
    assert (Hall : forall x, In x v -> x = arithmetic_mean v).
    { intros x Hx.
      pose proof (sum_nonneg_zero _ v (fun x => pow2_ge_0 _) Hz' x Hx) as H0.
      cbn beta in H0. apply Rminus_diag_uniq. nra. }
    intros x y Hx Hy. now rewrite (Hall x Hx), (Hall y Hy).
  - intros Hsame.
    pose proof (Factors.std_present v Hlen) as Hstd.
    rewrite (Ranking.std_identical (map Some v)) in Hstd.
    + now injection Hstd.
    + now rewrite Factors.dropna_present.
    + now rewrite Factors.dropna_present.
Qed.

(** X6.  On a window of 63 non-zero closes the volatility is present and not
    negative, and it is zero exactly when all the daily returns of the window
    are equal (a flat path, or one growing at a constant rate). *)
Theorem compute_volatility_zero (prices : list Bar) :
  let close := dropna (map Provider.close prices) in
  let returns := simple_returns (trailing (Z.to_nat VOLATILITY_WINDOW_DAYS) close) in
  (VOLATILITY_WINDOW_DAYS <= Z.of_nat (length close))%Z ->
  Forall (fun c => c <> 0) (trailing (Z.to_nat VOLATILITY_WINDOW_DAYS) close) ->
  exists v, _compute_volatility prices = Some v
    /\ 0 <= v
    /\ (v = 0 <-> forall x y, In x returns -> In y returns -> x = y).
Proof.
  intros close returns Hlen Hnz.
  destruct (Factors.compute_volatility_facts prices) as (_ & Hb & _ & Hd).
  fold close in Hb. specialize (Hb Hlen Hnz). fold returns in Hb.
  exists (sample_std returns * sqrt 252).
  split; [ exact Hb | split; [ apply (Hd _ Hb) | ] ].
  assert (Hr : (2 <= length returns)%nat).
  { unfold returns. rewrite Factors.length_simple_returns.
    unfold trailing. rewrite length_skipn.
    unfold VOLATILITY_WINDOW_DAYS in *. lia. }
  rewrite <- (sample_std_zero returns Hr).
  assert (H252 : 0 < sqrt 252) by (apply sqrt_lt_R0; lra).
  split.
  - intros Hz. apply Rmult_integral in Hz. destruct Hz; [ assumption | lra ].
  - intros ->. lra.
Qed.

Lemma in_simple_returns_flat (c prev : R) (n : nat) (x : R) :
  In x (simple_returns_from prev (repeat c n)) -> x = c / prev - 1 \/ x = c / c - 1.
Proof.
  revert prev. induction n as [ | n IH]; intros prev; cbn; [ tauto | ].
  intros [<- | Hx]; [ now left | ].
  right. destruct (IH c Hx); assumption.
Qed.

(** The flat path at 100: its volatility is zero. *)
Lemma compute_volatility_zero_witness :
  _compute_volatility flat_prices = Some 0.
Proof.
  destruct (compute_volatility_zero flat_prices) as (v & Hv & _ & Hz).
  - rewrite flat_closes, repeat_length. unfold VOLATILITY_WINDOW_DAYS. lia.
  - rewrite flat_closes. apply Forall_forall. intros c Hc.
    unfold trailing in Hc.
    assert (Hin : In c (repeat 100 63)).
    { rewrite <- (firstn_skipn (length (repeat 100 63) - Z.to_nat VOLATILITY_WINDOW_DAYS)
                     (repeat 100 63)).
      apply in_or_app. now right. }
    apply repeat_spec in Hin. lra.
  - rewrite Hv. f_equal. apply Hz. rewrite flat_closes.
    change (trailing (Z.to_nat VOLATILITY_WINDOW_DAYS) (repeat 100 63))
      with (repeat 100 63).
    change (simple_returns (repeat 100 63))
      with (simple_returns_from 100 (repeat 100 62)).
    intros x y Hx Hy.
    apply in_simple_returns_flat in Hx. apply in_simple_returns_flat in Hy.
    destruct Hx as [-> | ->], Hy as [-> | ->]; reflexivity.
Defined.

End FactorsMore.

(** ** The price-history validator *)

Module ValidatorProps.
Import Settings Provider Pandas Agent5 FactorSpec Validators Examples.

Lemma count_null_dropna (s : Series) :
  (count_null s + length (dropna s) = length s)%nat.
Proof.
  unfold count_null.
  induction s as [ | [x | ] s IH]; cbn [filter dropna length]; lia.
Qed.

Lemma any_non_positive_false (s : Series) :
  any_non_positive s = false <-> forall x, In x (dropna s) -> 0 < x.
Proof.
  unfold any_non_positive.
  induction s as [ | [x | ] s IH]; cbn [existsb dropna].
  - split; [ intros _ x [] | reflexivity ].
  - destruct (Rle_dec x 0) as [Hle | Hgt]; cbn [orb].
    + split; [ discriminate | ]. intros H. specialize (H x (or_introl eq_refl)). lra.
    + rewrite IH. split.
      * intros H y [<- | Hy]; [ lra | now apply H ].
      * intros H y Hy. apply H. now right.
  - exact IH.
Qed.

Lemma missing_columns_false (df : Frame) :
  missing_columns df = false
  <-> forall c, In c required_cols -> In c (columns df).
Proof.
  unfold missing_columns. rewrite negb_false_iff, forallb_forall.
  split; intros H c Hc; specialize (H c Hc).
  - apply existsb_exists in H. destruct H as (c' & Hc' & E).
    apply String.eqb_eq in E. now subst.
  - apply existsb_exists. exists c. split; [ exact H | apply String.eqb_refl ].
Qed.

Lemma null_share (n l : nat) :
  (0 < l)%nat -> (~ INR n / INR l > 5 / 100 <-> (20 * n <= l)%nat).
Proof.
  intros Hl. assert (Hpos : 0 < INR l) by (apply lt_0_INR; exact Hl).
  assert (H20 : INR 20 = 20) by (cbn; lra).
  split.
  - intros H. apply INR_le. rewrite mult_INR, H20.
    apply Rnot_gt_le in H.
    apply (Rmult_le_compat_r (INR l)) in H; [ | lra ].
    unfold Rdiv in H. rewrite Rmult_assoc, Rinv_l, Rmult_1_r in H by lra. lra.
  - intros H Hgt. apply le_INR in H. rewrite mult_INR, H20 in H.
    apply (Rmult_gt_compat_r (INR l)) in Hgt; [ | lra ].
    unfold Rdiv in Hgt. rewrite Rmult_assoc, Rinv_l, Rmult_1_r in Hgt by lra. lra.
Qed.

Lemma validate_price_history_fit (df : Frame) (t : string) (min_rows : Z) :
  validate_price_history (Some df) t min_rows = true <-> fit_for_use df min_rows.
Proof.
  unfold validate_price_history, fit_for_use.
  rewrite <- missing_columns_false, <- any_non_positive_false, length_map.
  destruct (empty df) eqn:Hempty.
  { split; [ discriminate | ]. intros (Hr & Hc & _).
    pose proof (proj1 (missing_columns_false df) Hc) as Hc'. unfold empty in Hempty.
    destruct (rows df); [ now contradiction Hr | ].
    destruct (columns df) eqn:Hcols; [ | discriminate ].
    specialize (Hc' "open"%string (or_introl eq_refl)). destruct Hc'. }
  assert (Hr : rows df <> []).
  { unfold empty in Hempty. destruct (rows df); [ discriminate | discriminate ]. }
  assert (Hl : (0 < length (rows df))%nat).
  { destruct (rows df); [ now contradiction Hr | cbn; lia ]. }
  destruct (missing_columns df).
  { split; [ discriminate | ]. intros (_ & H & _). discriminate H. }
  destruct (Z.ltb_spec (Z.of_nat (length (rows df))) min_rows).
  { split; [ discriminate | ]. intros (_ & _ & H' & _). lia. }
  pose proof (null_share (count_null (map Provider.close (rows df)))
                (length (rows df)) Hl) as Hshare.
  destruct (Rgt_dec _ _) as [Hgt | Hle].
  { split; [ discriminate | ]. intros (_ & _ & _ & H' & _).
    apply Hshare in H'. contradiction. }
  apply Hshare in Hle.
  destruct (any_non_positive _).
  { split; [ discriminate | ]. intros (_ & _ & _ & _ & H'). discriminate H'. }
  split; [ | reflexivity ]. intros _. repeat split; assumption.
Qed.

(** X7.  A frame accepted by [validate_price_history] has at least
    [min_rows] rows, at most one missing close in twenty rows and only
    positive closes; when [min_rows] is at least 265 that leaves 252 valid
    closes, so both the momentum and the volatility of the frame are
    present. *)
Theorem validated_history_scores (df : Frame) (t : string) (min_rows : Z) :
  validate_price_history (Some df) t min_rows = true ->
  fit_for_use df min_rows
  /\ ((265 <= min_rows)%Z ->
      (exists m, _compute_momentum (rows df) = Some m)
      /\ (exists v, _compute_volatility (rows df) = Some v)).
Proof.
  intros Hv. apply validate_price_history_fit in Hv.
  split; [ exact Hv | ]. intros Hmin.
  destruct Hv as (_ & _ & Hrows & Hnull & Hpos).
  pose proof (count_null_dropna (map Provider.close (rows df))) as Hcount.
  rewrite length_map in Hcount.
  assert (Hvalid : (252 <= Z.of_nat (length (dropna (map Provider.close (rows df)))))%Z)
    by lia.
  split.
  - apply FactorsMore.momentum_present; [ unfold MOMENTUM_LONG_WINDOW_DAYS; lia | exact Hpos ].
  - destruct (Factors.compute_volatility_facts (rows df)) as (_ & Hb & _).
    eexists. apply Hb; [ unfold VOLATILITY_WINDOW_DAYS; lia | ].
    apply Forall_forall. intros c Hc.
    assert (Hin : In c (dropna (map Provider.close (rows df)))).
    { unfold trailing in Hc.
      rewrite <- (firstn_skipn
                    (length (dropna (map Provider.close (rows df)))
                     - Z.to_nat VOLATILITY_WINDOW_DAYS)).
      apply in_or_app. now right. }
    specialize (Hpos c Hin). lra.
Qed.

Lemma long_prices_fit : fit_for_use (mkFrame required_cols long_prices) 265.
Proof.
  unfold fit_for_use. cbn [rows columns].
  assert (Hc : dropna (map Provider.close long_prices) = long_closes)
    by apply Factors.dropna_bar_of_close.
  assert (Hlen : length long_prices = 265%nat).
  { unfold long_prices, long_closes. now rewrite !length_map, length_seq. }
  pose proof (count_null_dropna (map Provider.close long_prices)) as Hn.
  rewrite Hc, length_map, Hlen in Hn.
  assert (length long_closes = 265%nat)
    by (unfold long_closes; now rewrite length_map, length_seq).
  repeat split.
  - unfold long_prices, long_closes. discriminate.
  - auto.
  - lia.
  - lia.
  - intros x. rewrite Hc. unfold long_closes. rewrite in_map_iff.
    intros (n & <- & Hin). apply in_seq in Hin. apply lt_0_INR. lia.
Qed.

(** The 265 closes 1, 2, ..., 265 pass with [min_rows = 265] and give a
    momentum. *)
Lemma validated_history_scores_witness :
  validate_price_history (Some (mkFrame required_cols long_prices)) "T" 265 = true
  /\ exists m, _compute_momentum long_prices = Some m.
Proof.
  assert (Hv : validate_price_history (Some (mkFrame required_cols long_prices)) "T" 265
               = true)
    by (apply validate_price_history_fit, long_prices_fit).
  split; [ exact Hv | ].
  destruct (validated_history_scores _ _ _ Hv) as [_ H].
  apply H. lia.
Defined.

End ValidatorProps.

(** ** More on the ranking engine *)

Module RankingMore.
Import Settings Pandas Agent6 FactorSpec Examples.

(** *** Rounding to four decimals *)

Lemma rint_near (x : R) : Rabs (IZR (rint x) - x) <= 1 / 2.
Proof.
  unfold rint, frac_part.
  destruct (base_Int_part x) as [Hlo Hhi].
  destruct (Rlt_dec _ _) as [Hd | Hd].
  - apply Rabs_le. lra.
  - destruct (Rlt_dec _ _) as [Hu | Hu].
    + rewrite plus_IZR. apply Rabs_le. lra.
    + destruct (Z.even _); [ | rewrite plus_IZR ]; apply Rabs_le; lra.
Qed.

Lemma Rabs_bound (a b : R) : Rabs a <= b -> - b <= a <= b.
Proof. unfold Rabs. destruct (Rcase_abs a); lra. Qed.

Lemma rint_monotone (x y : R) : x <= y -> (rint x <= rint y)%Z.
Proof.
  intros Hxy.
  destruct (Z.le_gt_cases (rint x) (rint y)) as [ | Hgt]; [ assumption | exfalso ].
  pose proof (rint_near x) as Hx. pose proof (rint_near y) as Hy.
  apply Rabs_bound in Hx. apply Rabs_bound in Hy.
  assert (Hz : IZR (rint y) + 1 <= IZR (rint x)).
  { rewrite <- plus_IZR. apply IZR_le. lia. }
  assert (x = y) by lra. subst y. lia.
Qed.

Lemma round4_monotone (x y : R) : x <= y -> round4 x <= round4 y.
Proof.
  intros Hxy. unfold round4.
  assert (H : IZR (rint (x * 10000)) <= IZR (rint (y * 10000))).
  { apply IZR_le, rint_monotone. lra. }
  lra.
Qed.

Lemma round4_near (x : R) : Rabs (round4 x - x) <= 5 / 100000.
Proof.
  unfold round4. pose proof (rint_near (x * 10000)) as H.
  apply Rabs_bound in H. apply Rabs_le. lra.
Qed.

(** *** The composite *)

(** X18.  The configured weights are positive and sum to one, so the composite
    of a row is a weighted average of its three z-scores: it lies between the
    smallest and the largest of them. *)
Theorem composite_is_average (momentum_z quality_z low_vol_z : R) :
  FACTOR_WEIGHTS_momentum + FACTOR_WEIGHTS_quality + FACTOR_WEIGHTS_low_vol = 1
  /\ 0 < FACTOR_WEIGHTS_momentum
  /\ 0 < FACTOR_WEIGHTS_quality
  /\ 0 < FACTOR_WEIGHTS_low_vol
  /\ Rmin momentum_z (Rmin quality_z low_vol_z)
     <= composite momentum_z quality_z low_vol_z
     <= Rmax momentum_z (Rmax quality_z low_vol_z).
Proof.
  unfold composite, FACTOR_WEIGHTS_momentum, FACTOR_WEIGHTS_quality,
    FACTOR_WEIGHTS_low_vol.
  repeat split; try lra.
  - unfold Rmin. destruct (Rle_dec quality_z low_vol_z), (Rle_dec momentum_z _); lra.
  - unfold Rmax. destruct (Rle_dec quality_z low_vol_z), (Rle_dec momentum_z _); lra.
Qed.

(** *** The z-scores of a column *)

Lemma zscore_cell_value (m s x : R) :
  s <> 0 -> zscore_cell (Some m) (Some s) (Some x) = (x - m) / s.
Proof.
  intros Hs. unfold zscore_cell, zscore_raw.
  destruct (Req_dec_T s 0); [ contradiction | ].
  now rewrite (Ranking.fdiv_nonzero _ _ Hs).
Qed.

Lemma mean_value (series : Series) :
  dropna series <> [] ->
  mean series = Some (sum (dropna series) / INR (length (dropna series))).
Proof.
  intros Hne. unfold mean. destruct (dropna series); [ now contradiction Hne | reflexivity ].
Qed.

Lemma std_value (series : Series) (s : R) :
  std series = Some s ->
  (2 <= length (dropna series))%nat
  /\ s = sqrt (sum (map (fun x => Rsqr (sum (dropna series)
                                        / INR (length (dropna series)) - x))
                        (dropna series))
               / INR (length (dropna series) - 1)).
Proof.
  unfold std. destruct (Nat.leb_spec (length (dropna series)) 1); [ discriminate | ].
  intros [= <-]. split; [ lia | reflexivity ].
Qed.








(** The sum of squared deviations from the mean, and its root. *)
Lemma std_of_present (series : Series) :
  std series = std (map Some (dropna series)).
Proof. unfold std. now rewrite Factors.dropna_present. Qed.

Lemma std_positive (series : Series) :
  (exists x y, In x (dropna series) /\ In y (dropna series) /\ x <> y) ->
  exists s, std series = Some s /\ 0 < s.
Proof.
  intros (x & y & Hx & Hy & Hxy).
  assert (Hlen : (2 <= length (dropna series))%nat).
  { destruct (dropna series) as [ | u [ | w l]]; cbn; try lia.
    - destruct Hx.
    - destruct Hx as [<- | []], Hy as [<- | []]. now contradiction Hxy. }
  rewrite std_of_present, (Factors.std_present _ Hlen).
  eexists. split; [ reflexivity | ].
  destruct (Req_dec_T (sample_std (dropna series)) 0) as [Hz | Hnz].
  - pose proof (proj1 (FactorsMore.sample_std_zero _ Hlen) Hz) as Hall.
    contradiction Hxy. now apply Hall.
  - assert (0 <= sample_std (dropna series)) by apply sqrt_pos. lra.
Qed.

Lemma sum_sq_zscore_cells (m s : R) (series : Series) :
  s <> 0 ->
  sum (map (fun v => Rsqr (zscore_cell (Some m) (Some s) v)) series)
  = sum (map (fun x => Rsqr (m - x)) (dropna series)) / Rsqr s.
Proof.
  intros Hs. induction series as [ | [x | ] l IH].
  - cbn. unfold Rsqr. field. exact Hs.
  - cbn [map sum fold_right dropna].
    fold (sum (map (fun v => Rsqr (zscore_cell (Some m) (Some s) v)) l)).
    fold (sum (map (fun x => Rsqr (m - x)) (dropna l))).
    rewrite IH, zscore_cell_value by exact Hs. unfold Rsqr. field. exact Hs.
  - cbn [map sum fold_right dropna].
    fold (sum (map (fun v => Rsqr (zscore_cell (Some m) (Some s) v)) l)).
    fold (sum (map (fun x => Rsqr (m - x)) (dropna l))).
    rewrite IH, Ranking.zscore_cell_missing. unfold Rsqr, Rdiv. ring.
Qed.

(** X12.  When two present values of a column differ, its standard deviation
    is positive and its z-scores are standardised: their squares sum to the
    number of present values minus one (unit sample variance). *)
Theorem zscore_unit_variance (series : Series) :
  (exists x y, In x (dropna series) /\ In y (dropna series) /\ x <> y) ->
  exists s, std series = Some s /\ 0 < s
    /\ sum (map Rsqr (zscore_column series)) = INR (length (dropna series)) - 1.
Proof.
  intros Hdiff. destruct (std_positive series Hdiff) as (s & Hs & Hpos).
  exists s. split; [ exact Hs | split; [ exact Hpos | ] ].
  destruct (std_value _ _ Hs) as [Hlen Hval].
  assert (Hne : dropna series <> []).
  { intros E. rewrite E in Hlen. cbn in Hlen. lia. }
  unfold zscore_column. rewrite map_map, Hs, (mean_value _ Hne).
  rewrite sum_sq_zscore_cells by lra.
  set (S := sum (map (fun x => Rsqr (sum (dropna series)
                                      / INR (length (dropna series)) - x))
                     (dropna series))) in *.
  assert (Hn : 0 < INR (length (dropna series) - 1)) by (apply lt_0_INR; lia).
  assert (HS : 0 <= S).
  { apply FactorsMore.sum_nonneg. intros x. apply Rle_0_sqr. }
  assert (Hsq : Rsqr s = S / INR (length (dropna series) - 1)).
  { rewrite Hval. unfold Rsqr. apply sqrt_sqrt.
    apply Rmult_le_pos; [ exact HS | left; now apply Rinv_0_lt_compat ]. }
  assert (HSnz : S <> 0).
  { intros E. rewrite E in Hsq. unfold Rdiv in Hsq. rewrite Rmult_0_l in Hsq.
    apply Rsqr_0_uniq in Hsq. lra. }
  assert (Hm : INR (length (dropna series) - 1) = INR (length (dropna series)) - 1).
  { rewrite minus_INR by lia. reflexivity. }
  rewrite Hsq, Hm in *. field. split; lra.
Qed.

Lemma zscore_unit_variance_witness :
  exists s, std [Some 0; None; Some 1] = Some s /\ 0 < s
    /\ sum (map Rsqr (zscore_column [Some 0; None; Some 1])) = INR 2 - 1.
Proof.
  apply (zscore_unit_variance [Some 0; None; Some 1]).
  exists 0, 1. cbn. repeat split; auto; lra.
Defined.

(** *** A column in other units *)









Section WithSort.

Variable sort_values : list Scored -> list Scored.
Hypothesis sort_values_sorts : sorts_descending sort_values.

(** X8.  What is returned is what is displayed: along the result the rounded
    [composite_score] never increases, and every rounded field is within
    0.00005 of the unrounded value of the row it comes from. *)
Theorem rank_stocks_rounded_output (scores : list Agent5.FactorScores)
    (top_n : option Z) :
  (forall i j a b, (i < j)%nat ->
     nth_error (rank_stocks sort_values scores top_n) i = Some a ->
     nth_error (rank_stocks sort_values scores top_n) j = Some b ->
     composite_score b <= composite_score a)
  /\ (forall o, In o (rank_stocks sort_values scores top_n) ->
      exists sc, In sc (score (prepare scores))
        /\ ticker o = sc_ticker sc
        /\ Rabs (composite_score o - sc_composite_score sc) <= 5 / 100000
        /\ Rabs (momentum_z o - sc_momentum_z sc) <= 5 / 100000
        /\ Rabs (quality_z o - sc_quality_z sc) <= 5 / 100000
        /\ Rabs (low_vol_z o - sc_low_vol_z sc) <= 5 / 100000).
Proof.
  split.
  - intros i j a b Hij Ha Hb.
    destruct (Ranking.rank_stocks_nth _ sort_values_sorts _ _ _ _ Ha) as (ra & Hra & ->).
    destruct (Ranking.rank_stocks_nth _ sort_values_sorts _ _ _ _ Hb) as (rb & Hrb & ->).
    cbn. apply round4_monotone.
    eapply Ranking.descending_nth;
      [ apply sort_values_sorts | exact Hij | exact Hra | exact Hrb ].
  - intros o Ho.
    destruct (Ranking.rank_stocks_rows _ sort_values_sorts _ _ _ Ho) as (sc & Hsc & Heq).
    exists sc. rewrite Heq. cbn.
    repeat split; try assumption; apply round4_near.
Qed.


(** *** The length and the tickers of the result *)

Lemma head_map {A B : Type} (f : A -> B) (n : Z) (l : list A) :
  map f (head n l) = head n (map f l).
Proof.
  unfold head. rewrite length_map. destruct (0 <=? n)%Z; symmetry; apply firstn_map.
Qed.

Lemma in_head {A : Type} (n : Z) (l : list A) (x : A) : In x (head n l) -> In x l.
Proof.
  intros Hx. apply In_nth_error in Hx. destruct Hx as [i Hi].
  eapply nth_error_In, Ranking.nth_error_head, Hi.
Qed.

Lemma NoDup_firstn {A : Type} (n : nat) (l : list A) : NoDup l -> NoDup (firstn n l).
Proof.
  intros Hl. rewrite <- (firstn_skipn n l) in Hl.
  now apply NoDup_app_remove_r in Hl.
Qed.

Lemma NoDup_head {A : Type} (n : Z) (l : list A) : NoDup l -> NoDup (head n l).
Proof. unfold head. destruct (0 <=? n)%Z; apply NoDup_firstn. Qed.

(** Dropping rows keeps the keys of the rows that stay distinct. *)
Lemma distinct_keys_kept {Row Key : Type} (keep : Row -> bool) (key : Row -> Key) :
  forall rows : list Row,
    NoDup (map key rows) -> NoDup (map key (filter keep rows)).
Proof.
  intros rows. induction rows as [ | r rows IH]; cbn [map filter]; intros Hnd.
  - constructor.
  - apply NoDup_cons_iff in Hnd. destruct Hnd as [Hfresh Hrest].
    destruct (keep r); [ | now apply IH ].
    cbn [map]. apply NoDup_cons; [ | now apply IH ].
    intros Hin. apply Hfresh. apply in_map_iff in Hin.
    destruct Hin as (r' & Hkey & Hr'). apply filter_In in Hr'.
    apply in_map_iff. exists r'. tauto.
Qed.

Lemma rank_stocks_ticker_column (scores : list Agent5.FactorScores)
    (top_n : option Z) :
  map ticker (rank_stocks sort_values scores top_n)
  = head (effective_top_n top_n)
         (map sc_ticker (sort_values (score (prepare scores)))).
Proof.
  rewrite (Ranking.rank_stocks_unfold _ sort_values_sorts), map_map.
  change (fun x => ticker (to_ranked x)) with (fun x : Scored * Z => sc_ticker (fst x)).
  rewrite <- (map_map fst sc_ticker), head_map, Ranking.with_rank_rows.
  apply head_map.
Qed.

Lemma sorted_tickers (scores : list Agent5.FactorScores) :
  Permutation (map Agent5.ticker (filter scoreable scores))
              (map sc_ticker (sort_values (score (prepare scores)))).
Proof.
  rewrite <- (map_map (fun s => invert_low_vol (to_row s)) row_ticker).
  rewrite <- Ranking.prepare_retained, <- Ranking.score_tickers.
  apply Permutation_map, sort_values_sorts.
Qed.

Lemma ranked_ticker_source (scores : list Agent5.FactorScores) (top_n : option Z)
    (t : string) :
  In t (map ticker (rank_stocks sort_values scores top_n)) ->
  exists s, In s scores /\ scoreable s = true /\ Agent5.ticker s = t.
Proof.
  rewrite rank_stocks_ticker_column. intros Ht. apply in_head in Ht.
  apply (Permutation_in _ (Permutation_sym (sorted_tickers scores))) in Ht.
  apply in_map_iff in Ht. destruct Ht as (s & Hs & Hin).
  apply filter_In in Hin. exists s. tauto.
Qed.

Lemma ranked_tickers_distinct (scores : list Agent5.FactorScores) (top_n : option Z) :
  NoDup (map Agent5.ticker scores) ->
  NoDup (map ticker (rank_stocks sort_values scores top_n)).
Proof.
  rewrite rank_stocks_ticker_column. intros Hnd. apply NoDup_head.
  apply (Permutation_NoDup (sorted_tickers scores)).
  now apply distinct_keys_kept.
Qed.

(** X10.  Every ticker returned is the ticker of an input record with a
    factor present, and when the input tickers are pairwise distinct so are
    the returned ones: no stock is listed twice. *)
Theorem rank_stocks_tickers (scores : list Agent5.FactorScores) (top_n : option Z) :
  (forall t, In t (map ticker (rank_stocks sort_values scores top_n)) ->
     exists s, In s scores /\ scoreable s = true /\ Agent5.ticker s = t)
  /\ (NoDup (map Agent5.ticker scores) ->
      NoDup (map ticker (rank_stocks sort_values scores top_n))).
Proof.
  split; [ intros t; apply ranked_ticker_source | apply ranked_tickers_distinct ].
Qed.

(** X11.  The result is always a prefix of the full ranking: a positive
    [top_n] keeps its first [top_n] entries, so that a larger [top_n] only
    appends entries, and a negative [top_n] keeps all but its last [- top_n]
    entries. *)
Theorem rank_stocks_prefix (scores : list Agent5.FactorScores) (top_n : option Z)
    (big : Z) :
  (0 < big)%Z ->
  (Z.of_nat (length (filter scoreable scores)) <= big)%Z ->
  rank_stocks sort_values scores top_n
  = head (effective_top_n top_n) (rank_stocks sort_values scores (Some big))
  /\ length (rank_stocks sort_values scores (Some big))
     = length (filter scoreable scores)
  /\ ((0 <= effective_top_n top_n)%Z ->
      length (rank_stocks sort_values scores top_n)
      = Nat.min (Z.to_nat (effective_top_n top_n)) (length (filter scoreable scores)))
  /\ ((effective_top_n top_n < 0)%Z ->
      length (rank_stocks sort_values scores top_n)
      = (length (filter scoreable scores) - Z.to_nat (- effective_top_n top_n))%nat).
Proof.
  intros Hbig Hall.
  assert (Heff : effective_top_n (Some big) = big) by (destruct big; try lia; reflexivity).
  assert (Hlen : length (with_rank (sort_values (score (prepare scores))))
                 = length (filter scoreable scores)).
  { rewrite Ranking.length_with_rank.
    rewrite <- (Permutation_length (proj1 (sort_values_sorts _))).
    now rewrite Ranking.length_score, Ranking.length_prepare. }
  assert (Hfull : rank_stocks sort_values scores (Some big)
                  = map to_ranked (with_rank (sort_values (score (prepare scores))))).
  { rewrite (Ranking.rank_stocks_unfold _ sort_values_sorts), Heff.
    rewrite Ranking.head_all; [ reflexivity | ]. now rewrite Hlen. }
  rewrite Hfull, length_map, Hlen.
  rewrite (Ranking.rank_stocks_unfold _ sort_values_sorts), head_map.
  split; [ reflexivity | split; [ reflexivity | ] ].
  unfold head. rewrite !length_map, Hlen. split; intros Hn.
  - destruct (Z.leb_spec 0 (effective_top_n top_n)); [ | lia ].
    now rewrite length_firstn, length_map, Hlen.
  - destruct (Z.leb_spec 0 (effective_top_n top_n)); [ lia | ].
    rewrite length_firstn, length_map, Hlen. lia.
Qed.

End WithSort.

Lemma rank_stocks_rounded_output_witness :
  sorts_descending sort_by_insertion
  /\ forall i j a b, (i < j)%nat ->
       nth_error (rank_stocks sort_by_insertion partial_universe (Some 3%Z)) i
       = Some a ->
       nth_error (rank_stocks sort_by_insertion partial_universe (Some 3%Z)) j
       = Some b ->
       composite_score b <= composite_score a.
Proof.
  split; [ apply Ranking.sort_by_insertion_sorts | ].
  apply (rank_stocks_rounded_output sort_by_insertion
           Ranking.sort_by_insertion_sorts partial_universe (Some 3%Z)).
Defined.


Lemma rank_stocks_tickers_witness :
  sorts_descending sort_by_insertion
  /\ NoDup (map Agent5.ticker partial_universe)
  /\ NoDup (map ticker (rank_stocks sort_by_insertion partial_universe (Some 3%Z))).
Proof.
  assert (Hnd : NoDup (map Agent5.ticker partial_universe)).
  { cbn. repeat constructor; cbn; intuition discriminate. }
  split; [ apply Ranking.sort_by_insertion_sorts | split; [ exact Hnd | ] ].
  apply (rank_stocks_tickers sort_by_insertion
           Ranking.sort_by_insertion_sorts partial_universe (Some 3%Z)).
  exact Hnd.
Defined.

Lemma rank_stocks_prefix_witness :
  sorts_descending sort_by_insertion
  /\ (Z.of_nat (length (filter scoreable partial_universe)) <= 3)%Z
  /\ length (rank_stocks sort_by_insertion partial_universe (Some (-1)%Z))
     = 1%nat.
Proof.
  assert (Hk : (Z.of_nat (length (filter scoreable partial_universe)) <= 3)%Z)
    by (cbn; lia).
  split; [ apply Ranking.sort_by_insertion_sorts | split; [ exact Hk | ] ].
  apply (rank_stocks_prefix sort_by_insertion
           Ranking.sort_by_insertion_sorts partial_universe (Some (-1)%Z) 3
           ltac:(lia) Hk).
  cbn. lia.
Defined.

End RankingMore.


(** ** The sector table and the backtest driver *)

Module BacktestProps.
Import Settings Provider ScreenSpec Backtest Examples.

(** *** The sector table *)

Lemma all_sector_tickers_distinct :
  NoDup (concat (map snd YFinance.SECTOR_TICKERS)).
Proof.
  assert (E : nodup string_dec (concat (map snd YFinance.SECTOR_TICKERS))
              = concat (map snd YFinance.SECTOR_TICKERS))
    by (vm_compute; reflexivity).
  rewrite <- E. apply NoDup_nodup.
Qed.

Lemma lookup_found (sector : string) (table : list (string * list string))
    (tickers : list string) :
  YFinance.lookup sector table = Some tickers -> In (sector, tickers) table.
Proof.
  induction table as [ | [k v] rest IH]; cbn; [ discriminate | ].
  destruct (String.eqb_spec sector k) as [-> | ].
  - intros [= ->]. now left.
  - intros H. right. now apply IH.
Qed.

Lemma lookup_missing (sector : string) (table : list (string * list string)) :
  YFinance.lookup sector table = None -> ~ In sector (map fst table).
Proof.
  induction table as [ | [k v] rest IH]; cbn; [ tauto | ].
  destruct (String.eqb_spec sector k) as [-> | Hne]; [ discriminate | ].
  intros H [E | Hin]; [ now apply Hne | now apply IH ].
Qed.

Ltac distinct_by_computation :=
  match goal with
  | |- NoDup ?l =>
      let E := fresh in
      assert (E : nodup string_dec l = l) by (vm_compute; reflexivity);
      rewrite <- E; apply NoDup_nodup
  end.

(** X14.  [get_tickers_for_sector] of the built-in table answers for exactly
    the five sectors of the table and raises for any other name; each answer
    has ten tickers, all distinct, and no ticker belongs to two sectors. *)
Theorem sector_table_universe (sector : string) :
  match YFinance.get_tickers_for_sector sector with
  | Ok tickers =>
      In (sector, tickers) YFinance.SECTOR_TICKERS
      /\ length tickers = 10%nat /\ NoDup tickers
  | Raise _ => ~ In sector (map fst YFinance.SECTOR_TICKERS)
  end
  /\ NoDup (concat (map snd YFinance.SECTOR_TICKERS)).
Proof.
  split; [ | apply all_sector_tickers_distinct ].
  unfold YFinance.get_tickers_for_sector.
  destruct (YFinance.lookup sector YFinance.SECTOR_TICKERS) as [tickers | ] eqn:E.
  - apply lookup_found in E. split; [ exact E | ].
    unfold YFinance.SECTOR_TICKERS in E. cbn [In] in E.
    destruct E as [E | [E | [E | [E | [E | []]]]]]; injection E as _ <-;
      (split; [ reflexivity | distinct_by_computation ]).
  - now apply lookup_missing.
Qed.

(** *** One period and the whole run *)

Lemma score_single_ticker (t : string) (dp : DataProvider) (s e : string) :
  Agent5.ticker (Agent5._score_single t dp s e) = t.
Proof.
  unfold Agent5._score_single.
  destruct (get_price_history dp t s e); [ | reflexivity ].
  destruct (get_fundamentals dp t); reflexivity.
Qed.

Lemma factor_score_tickers (tickers : list string) (dp : DataProvider)
    (s e : string) :
  map Agent5.ticker (Agent5.compute_factor_scores tickers dp s e) = tickers.
Proof.
  unfold Agent5.compute_factor_scores. rewrite map_map.
  induction tickers as [ | t l IH]; [ reflexivity | ].
  cbn [map]. now rewrite score_single_ticker, IH.
Qed.

Section Driver.

Variable sort_values : list Agent6.Scored -> list Agent6.Scored.
Hypothesis sort_values_sorts : Agent6.sorts_descending sort_values.
Variable lookback_start : string -> string.
Variable date_range : string -> string -> string -> list string.

Lemma run_single_period_ok (sector : string) (dp : DataProvider) (as_of : string)
    (raw : list string) :
  get_tickers_for_sector dp sector = Ok raw ->
  exists snap,
    _run_single_period sort_values lookback_start sector dp as_of = Ok snap
    /\ Backtest.date snap = as_of
    /\ Backtest.sector snap = sector
    /\ selected_tickers snap = map Agent6.ticker (ranked_stocks snap)
    /\ (length (selected_tickers snap) <= 3)%nat
    /\ (forall t, In t (selected_tickers snap) ->
        In t raw /\ exists f, get_fundamentals dp t = Ok f /\ meets_thresholds f)
    /\ (NoDup raw -> NoDup (selected_tickers snap)).
Proof.
  intros Hraw. unfold _run_single_period. rewrite Hraw.
  eexists. split; [ reflexivity | ].
  cbn [Backtest.date Backtest.sector selected_tickers ranked_stocks].
  repeat split.
  - rewrite length_map, (Ranking.length_rank_stocks _ sort_values_sorts).
    + cbn. lia.
    + cbn. unfold TOP_N_PER_SECTOR. lia.
  - apply (RankingMore.ranked_ticker_source _ sort_values_sorts) in H.
    destruct H as (s & Hs & _ & <-).
    apply (in_map Agent5.ticker) in Hs. rewrite factor_score_tickers in Hs.
    rewrite ScreenerUniverse.passed_tickers in Hs. now apply filter_In in Hs.
  - apply (RankingMore.ranked_ticker_source _ sort_values_sorts) in H.
    destruct H as (s & Hs & _ & <-).
    apply (in_map Agent5.ticker) in Hs. rewrite factor_score_tickers in Hs.
    rewrite ScreenerUniverse.passed_tickers in Hs. apply filter_In in Hs.
    now apply ScreenerUniverse.screen_single_passes.
  - intros Hnd. apply (RankingMore.ranked_tickers_distinct _ sort_values_sorts).
    rewrite factor_score_tickers, ScreenerUniverse.passed_tickers.
    now apply NoDup_filter.
Qed.

(** X15.  One backtest period either passes on the [DataProviderError] of the
    sector lookup, or yields a snapshot for that date and sector whose
    selected tickers are the tickers of its ranked entries: at most three of
    them, each one a ticker of the sector's universe whose fundamentals were
    fetched and meet every hard-screen threshold, and pairwise distinct when
    the universe is. *)
Theorem run_single_period_selection (sector : string) (dp : DataProvider)
    (as_of : string) :
  match get_tickers_for_sector dp sector with
  | Raise e =>
      _run_single_period sort_values lookback_start sector dp as_of = Raise e
  | Ok raw =>
      exists snap,
        _run_single_period sort_values lookback_start sector dp as_of = Ok snap
        /\ Backtest.date snap = as_of
        /\ Backtest.sector snap = sector
        /\ selected_tickers snap = map Agent6.ticker (ranked_stocks snap)
        /\ (length (selected_tickers snap) <= 3)%nat
        /\ (forall t, In t (selected_tickers snap) ->
            In t raw
            /\ exists f, get_fundamentals dp t = Ok f /\ meets_thresholds f)
        /\ (NoDup raw -> NoDup (selected_tickers snap))
  end.
Proof.
  destruct (get_tickers_for_sector dp sector) as [raw | e] eqn:E.
  - now apply run_single_period_ok.
  - unfold _run_single_period. now rewrite E.
Qed.

Lemma run_periods_unknown (sector : string) (dp : DataProvider) (e : string)
    (dates : list string) :
  get_tickers_for_sector dp sector = Raise e ->
  run_periods sort_values lookback_start sector dp dates = [].
Proof.
  intros He. induction dates as [ | d l IH]; [ reflexivity | ].
  cbn [run_periods]. unfold _run_single_period. now rewrite He.
Qed.

Lemma run_periods_known (sector : string) (dp : DataProvider) (raw : list string)
    (dates : list string) :
  get_tickers_for_sector dp sector = Ok raw ->
  map Backtest.date (run_periods sort_values lookback_start sector dp dates) = dates
  /\ Forall (fun snap =>
               Backtest.sector snap = sector
               /\ (length (selected_tickers snap) <= 3)%nat)
            (run_periods sort_values lookback_start sector dp dates).
Proof.
  intros Hraw. induction dates as [ | d l [IHd IHf]]; [ split; [ reflexivity | constructor ] | ].
  cbn [run_periods].
  destruct (run_single_period_ok sector dp d raw Hraw)
    as (snap & -> & Hd & Hs & _ & Hlen & _).
  cbn [map]. rewrite Hd, IHd. split; [ reflexivity | ].
  constructor; [ split; assumption | exact IHf ].
Qed.

(** X16.  [run_backtest] never fails.  When the sector lookup raises, every
    period is skipped and the result has no snapshot; otherwise it has one
    snapshot per rebalance date, in date order, each for the requested sector
    and with at most three selected tickers.  Missing or empty start, end
    and frequency arguments are replaced by the configured defaults. *)
Theorem run_backtest_periods (sector : string) (dp : DataProvider)
    (start_date end_date frequency : option string) :
  let result :=
    run_backtest sort_values lookback_start date_range sector dp
                 start_date end_date frequency in
  let dates :=
    date_range (or_default start_date BACKTEST_START_DATE)
               (or_default end_date BACKTEST_END_DATE)
               (or_default frequency REBALANCE_FREQUENCY) in
  match get_tickers_for_sector dp sector with
  | Raise _ => snapshots result = []
  | Ok _ => map Backtest.date (snapshots result) = dates
  end
  /\ (length (snapshots result) <= length dates)%nat
  /\ Forall (fun snap =>
               Backtest.sector snap = sector
               /\ (length (selected_tickers snap) <= 3)%nat)
            (snapshots result)
  /\ result_sector result = sector
  /\ Backtest.start_date result = or_default start_date BACKTEST_START_DATE
  /\ Backtest.end_date result = or_default end_date BACKTEST_END_DATE.
Proof.
  intros result dates. unfold result, run_backtest.
  cbn [snapshots result_sector Backtest.start_date Backtest.end_date]. fold dates.
  destruct (get_tickers_for_sector dp sector) as [raw | e] eqn:E.
  - destruct (run_periods_known sector dp raw dates E) as [Hd Hf].
    repeat split; try assumption.
    rewrite <- Hd at 2. now rewrite length_map.
  - rewrite (run_periods_unknown sector dp e dates E).
    repeat split; [ cbn; lia | constructor ].
Qed.

End Driver.

Lemma run_single_period_selection_witness :
  Agent6.sorts_descending Agent6.sort_by_insertion
  /\ exists snap,
       _run_single_period Agent6.sort_by_insertion (fun d => d) "Energy"
         (Fixtures.table_provider rising_prices GOOD_FUNDAMENTALS) "2023-06-01"
       = Ok snap
       /\ (length (selected_tickers snap) <= 3)%nat
       /\ NoDup (selected_tickers snap).
Proof.
  split; [ apply Ranking.sort_by_insertion_sorts | ].
  pose proof (run_single_period_selection Agent6.sort_by_insertion
                Ranking.sort_by_insertion_sorts (fun d => d) "Energy"
                (Fixtures.table_provider rising_prices GOOD_FUNDAMENTALS)
                "2023-06-01") as H.
  cbn [get_tickers_for_sector Fixtures.table_provider] in H.
  change (YFinance.get_tickers_for_sector "Energy")
    with (@Ok (list string)
            ["XOM"; "CVX"; "COP"; "EOG"; "SLB"; "MPC"; "PSX"; "VLO"; "PXD"; "OXY"]%string)
    in H.
  destruct H as (snap & Hsnap & _ & _ & _ & Hlen & _ & Hnd).
  exists snap. split; [ exact Hsnap | split; [ exact Hlen | ] ].
  apply Hnd. distinct_by_computation.
Defined.

Lemma run_backtest_periods_witness :
  Agent6.sorts_descending Agent6.sort_by_insertion
  /\ snapshots (run_backtest Agent6.sort_by_insertion (fun d => d) two_dates
                  "Crypto" (Fixtures.table_provider rising_prices GOOD_FUNDAMENTALS)
                  None None None)
     = []
  /\ map Backtest.date
       (snapshots (run_backtest Agent6.sort_by_insertion (fun d => d) two_dates
                     "Energy" (Fixtures.table_provider rising_prices GOOD_FUNDAMENTALS)
                     None None None))
     = ["2019-01-01"; "2019-01-02"]%string.
Proof.
  split; [ apply Ranking.sort_by_insertion_sorts | split ].
  - pose proof (run_backtest_periods Agent6.sort_by_insertion
                  Ranking.sort_by_insertion_sorts (fun d => d) two_dates
                  "Crypto" (Fixtures.table_provider rising_prices GOOD_FUNDAMENTALS)
                  None None None) as [H _].
    exact H.
  - pose proof (run_backtest_periods Agent6.sort_by_insertion
                  Ranking.sort_by_insertion_sorts (fun d => d) two_dates
                  "Energy" (Fixtures.table_provider rising_prices GOOD_FUNDAMENTALS)
                  None None None) as [H _].
    exact H.
Defined.

End BacktestProps.
(** ** Volatility across the two engines *)

Module Pipeline.
Import Settings Provider Pandas FactorSpec Examples.

Lemma zscore_cell_monotone (series : Series) (x y : R) :
  x <= y ->
  Agent6.zscore_cell (mean series) (std series) (Some x)
  <= Agent6.zscore_cell (mean series) (std series) (Some y).
Proof.
  intros Hxy. unfold Agent6.zscore_cell, Agent6.zscore_raw.
  destruct (std series) as [s | ] eqn:Hs; [ | cbn; lra ].
  destruct (Req_dec_T s 0) as [ | Hnz]; [ cbn; lra | ].
  destruct (mean series) as [m | ]; [ | cbn; lra ].
  rewrite !(Ranking.fdiv_nonzero _ _ Hnz). cbn [fillna].
  pose proof (Factors.std_nonneg _ _ Hs) as Hpos.
  unfold Rdiv. apply Rmult_le_compat_r; [ | lra ].
  left. apply Rinv_0_lt_compat. lra.
Qed.

Lemma prepare_low_vol (scores : list Agent5.FactorScores) :
  map Agent6.row_low_vol (Agent6.prepare scores)
  = map (fun s => Agent6.invert (Agent5.low_vol s)) (filter Agent6.scoreable scores).
Proof. rewrite Ranking.prepare_retained, map_map. reflexivity. Qed.

Lemma in_dropna (series : Series) (x : R) :
  In (Some x) series -> In x (dropna series).
Proof.
  induction series as [ | [y | ] l IH]; cbn [dropna]; intros H.
  - destruct H.
  - destruct H as [E | H]; [ injection E as ->; now left | right; now apply IH ].
  - destruct H as [E | H]; [ discriminate E | now apply IH ].
Qed.

(** The cell of a lower volatility is strictly higher: both negated values
    are in the column, so its deviation is positive. *)
Lemma lower_volatility_higher_cell (scores : list Agent5.FactorScores)
    (sa sb : Agent5.FactorScores) (va vb : R) :
  In sa scores -> In sb scores ->
  Agent5.low_vol sa = Some va -> Agent5.low_vol sb = Some vb -> va < vb ->
  Agent6.sc_low_vol_z (Agent6.frame_row scores sb)
  < Agent6.sc_low_vol_z (Agent6.frame_row scores sa).
Proof.
  intros Ha Hb Hva Hvb Hlt.
  unfold Agent6.frame_row.
  cbn [Agent6.sc_low_vol_z Agent6.row_low_vol Agent6.invert_low_vol Agent6.to_row].
  rewrite Hva, Hvb. cbn [Agent6.invert].
  set (negated := map Agent6.row_low_vol (Agent6.prepare scores)).
  assert (Hin : forall s v, In s scores -> Agent5.low_vol s = Some v ->
                            In (- v) (dropna negated)).
  { intros s v Hs Hv. apply in_dropna. unfold negated. rewrite prepare_low_vol.
    apply in_map_iff. exists s. rewrite Hv. split; [ reflexivity | ].
    apply filter_In. split; [ exact Hs | ].
    unfold Agent6.scoreable. rewrite Hv. cbn. apply orb_true_r. }
  pose proof (Hin sa va Ha Hva) as Hina. pose proof (Hin sb vb Hb Hvb) as Hinb.
  destruct (RankingMore.std_positive negated) as (d & Hd & Hpos).
  { exists (- va), (- vb). repeat split; try assumption. lra. }
  assert (Hne : dropna negated <> []) by (intros E; rewrite E in Hina; destruct Hina).
  rewrite Hd, (RankingMore.mean_value _ Hne).
  rewrite !RankingMore.zscore_cell_value by lra.
  unfold Rdiv. apply Rmult_lt_compat_r; [ now apply Rinv_0_lt_compat | lra ].
Qed.

Lemma lower_volatility_higher_composite (scores : list Agent5.FactorScores)
    (sa sb : Agent5.FactorScores) (va vb : R) :
  In sa scores -> In sb scores ->
  Agent5.momentum sa = Agent5.momentum sb ->
  Agent5.quality sa = Agent5.quality sb ->
  Agent5.low_vol sa = Some va -> Agent5.low_vol sb = Some vb -> va < vb ->
  Agent6.sc_composite_score (Agent6.frame_row scores sb)
  < Agent6.sc_composite_score (Agent6.frame_row scores sa).
Proof.
  intros Ha Hb Hm Hq Hva Hvb Hlt.
  pose proof (lower_volatility_higher_cell scores sa sb va vb Ha Hb Hva Hvb Hlt)
    as Hcell.
  unfold Agent6.frame_row in *.
  cbn [Agent6.sc_composite_score Agent6.sc_low_vol_z Agent6.row_momentum
       Agent6.row_quality Agent6.invert_low_vol Agent6.to_row] in *.
  rewrite Hm, Hq. unfold Agent6.composite, FACTOR_WEIGHTS_low_vol. lra.
Qed.

Section WithSort.

Variable sort_values : list Agent6.Scored -> list Agent6.Scored.
Hypothesis sort_values_sorts : Agent6.sorts_descending sort_values.

(** In the sorted frame the row of the calmer of two tickers that differ in
    volatility only comes first. *)
Lemma lower_volatility_sorts_first (scores : list Agent5.FactorScores)
    (sa sb : Agent5.FactorScores) (va vb : R) (i j : nat) :
  In sa scores -> In sb scores ->
  Agent5.momentum sa = Agent5.momentum sb ->
  Agent5.quality sa = Agent5.quality sb ->
  Agent5.low_vol sa = Some va -> Agent5.low_vol sb = Some vb -> va < vb ->
  nth_error (sort_values (Agent6.score (Agent6.prepare scores))) i
  = Some (Agent6.frame_row scores sa) ->
  nth_error (sort_values (Agent6.score (Agent6.prepare scores))) j
  = Some (Agent6.frame_row scores sb) ->
  (i < j)%nat.
Proof.
  intros Ha Hb Hm Hq Hva Hvb Hlt Hi Hj.
  pose proof (lower_volatility_higher_composite scores sa sb va vb
                Ha Hb Hm Hq Hva Hvb Hlt) as Hcomp.
  destruct (Nat.lt_trichotomy i j) as [Hij | [-> | Hji]]; [ exact Hij | | ].
  - assert (E : Agent6.frame_row scores sa = Agent6.frame_row scores sb)
      by congruence.
    rewrite E in Hcomp. lra.
  - pose proof (Ranking.descending_nth _ _ _ _ _
                  (proj2 (sort_values_sorts _)) Hji Hj Hi). lra.
Qed.

(** C6.  [_compute_volatility] is absent with fewer than
    [VOLATILITY_WINDOW_DAYS] valid closes and with fewer than 10 valid daily
    returns; on a window of non-zero closes it is the sample standard
    deviation of the daily simple returns of the trailing window, times
    [sqrt 252]; it is never negative, and [_score_single] stores it as it is.
    [rank_stocks] replaces each present value [v] of the column by [- v]
    before the statistics are taken, and the [low_vol] z-score of a row is
    the cell of its negated value in the negated column.  So lower
    volatility ranks higher: of two tickers of the universe with the same
    momentum and quality, the one with the lower raw volatility has the
    strictly higher [low_vol] z-score and the strictly higher composite;
    whenever the more volatile one is returned, the calmer one is returned
    above it, with a smaller rank; and when [top_n] covers the retained
    tickers both are returned, the calmer one first. *)
Theorem low_vol_raw_then_negated (prices : list Bar) (t : string)
    (dp : DataProvider) (start_date end_date : string) (f : Fundamentals)
    (scores : list Agent5.FactorScores) (top_n : option Z) :
  let close := dropna (map Provider.close prices) in
  let window := Z.to_nat VOLATILITY_WINDOW_DAYS in
  let negated := map Agent6.row_low_vol (Agent6.prepare scores) in
  let sorted := sort_values (Agent6.score (Agent6.prepare scores)) in
  let out := Agent6.rank_stocks sort_values scores top_n in
  ((Z.of_nat (length close) < VOLATILITY_WINDOW_DAYS)%Z ->
   Agent5._compute_volatility prices = None)
  /\ ((VOLATILITY_WINDOW_DAYS <= Z.of_nat (length close))%Z ->
      Forall (fun c => c <> 0) (trailing window close) ->
      Agent5._compute_volatility prices
      = Some (sample_std (simple_returns (trailing window close)) * sqrt 252))
  /\ ((length (filter Agent5.not_nan
                 (Agent5.pct_change (iloc_tail close VOLATILITY_WINDOW_DAYS))) < 10)%nat ->
      Agent5._compute_volatility prices = None)
  /\ (forall v, Agent5._compute_volatility prices = Some v -> 0 <= v)
  /\ (get_price_history dp t start_date end_date = Ok prices ->
      get_fundamentals dp t = Ok f ->
      Agent5.low_vol (Agent5._score_single t dp start_date end_date)
      = Agent5._compute_volatility prices)
  /\ negated
     = map (fun s => Agent6.invert (Agent5.low_vol s)) (filter Agent6.scoreable scores)
  /\ (forall v, Agent6.invert (Some v) = Some (- v))
  /\ (forall sc, In sc (Agent6.score (Agent6.prepare scores)) ->
      exists r, In r (Agent6.prepare scores)
        /\ Agent6.sc_ticker sc = Agent6.row_ticker r
        /\ Agent6.sc_low_vol_z sc
           = Agent6.zscore_cell (mean negated) (std negated) (Agent6.row_low_vol r))
  /\ (forall lower higher, lower <= higher ->
      Agent6.zscore_cell (mean negated) (std negated) (Agent6.invert (Some higher))
      <= Agent6.zscore_cell (mean negated) (std negated) (Agent6.invert (Some lower)))
  /\ (forall sa sb va vb,
      In sa scores -> In sb scores ->
      Agent5.momentum sa = Agent5.momentum sb ->
      Agent5.quality sa = Agent5.quality sb ->
      Agent5.low_vol sa = Some va -> Agent5.low_vol sb = Some vb -> va < vb ->
      Agent6.sc_low_vol_z (Agent6.frame_row scores sb)
      < Agent6.sc_low_vol_z (Agent6.frame_row scores sa)
      /\ Agent6.sc_composite_score (Agent6.frame_row scores sb)
         < Agent6.sc_composite_score (Agent6.frame_row scores sa)
      /\ (forall j ob,
            nth_error sorted j = Some (Agent6.frame_row scores sb) ->
            nth_error out j = Some ob ->
            exists i oa,
              nth_error sorted i = Some (Agent6.frame_row scores sa)
              /\ nth_error out i = Some oa
              /\ Agent6.ticker oa = Agent5.ticker sa
              /\ Agent6.ticker ob = Agent5.ticker sb
              /\ (Agent6.rank oa < Agent6.rank ob)%Z)
      /\ ((Z.of_nat (length (filter Agent6.scoreable scores))
           <= Agent6.effective_top_n top_n)%Z ->
          exists oa ob,
            In oa out /\ In ob out
            /\ Agent6.ticker oa = Agent5.ticker sa
            /\ Agent6.ticker ob = Agent5.ticker sb
            /\ (Agent6.rank oa < Agent6.rank ob)%Z)).
Proof.
  intros close window negated sorted out.
  destruct (Factors.compute_volatility_facts prices) as (Ha & Hb & Hc & Hd).
  split; [ exact Ha | split; [ exact Hb | split; [ exact Hc | split; [ exact Hd | ] ] ] ].
  split; [ | split; [ apply prepare_low_vol | split; [ reflexivity | split; [ | split ] ] ] ].
  - intros Hp Hf. unfold Agent5._score_single. now rewrite Hp, Hf.
  - intros sc Hsc.
    destruct (Ranking.score_rows _ _ Hsc) as (r & Hr & Ht & _ & _ & Hv & _).
    exists r. auto.
  - intros lower higher Hle. cbn [Agent6.invert].
    apply zscore_cell_monotone. lra.
  - intros sa sb va vb Hina Hinb Hm Hq Hva Hvb Hlt.
    assert (Hsa : Agent6.scoreable sa = true).
    { unfold Agent6.scoreable. rewrite Hva. cbn. apply orb_true_r. }
    assert (Hrow : In (Agent6.frame_row scores sa) sorted).
    { apply (Permutation_in _ (Ranking.sort_values_perm _ sort_values_sorts _)).
      rewrite Ranking.score_frame_rows. apply in_map, filter_In. now split. }
    apply In_nth_error in Hrow. destruct Hrow as [i Hi].
    assert (Hfirst : forall j,
               nth_error sorted j = Some (Agent6.frame_row scores sb) -> (i < j)%nat).
    { intros j Hj.
      exact (lower_volatility_sorts_first scores sa sb va vb i j
               Hina Hinb Hm Hq Hva Hvb Hlt Hi Hj). }
    split; [ now apply (lower_volatility_higher_cell scores sa sb va vb) | ].
    split; [ now apply (lower_volatility_higher_composite scores sa sb va vb) | ].
    split.
    + intros j ob Hj Hob. pose proof (Hfirst j Hj) as Hij.
      destruct (Ranking.rank_stocks_nth _ sort_values_sorts _ _ _ _ Hob)
        as (sc & Hsc & ->).
      fold sorted in Hsc. rewrite Hj in Hsc. injection Hsc as <-.
      exists i, (Agent6.to_ranked (Agent6.frame_row scores sa, (Z.of_nat i + 1)%Z)).
      split; [ exact Hi | ].
      split; [ exact (Ranking.rank_stocks_above _ sort_values_sorts
                        _ _ _ _ _ _ Hij Hob Hi) | ].
      cbn. repeat split. lia.
    + intros Hn.
      assert (Hsb : Agent6.scoreable sb = true).
      { unfold Agent6.scoreable. rewrite Hvb. cbn. apply orb_true_r. }
      destruct (Ranking.retained_returned _ sort_values_sorts _ _ _ Hn Hinb Hsb)
        as (j & Hj & Hoj).
      pose proof (Hfirst j Hj) as Hij.
      pose proof (Ranking.rank_stocks_covering _ sort_values_sorts _ _ _ _ Hn Hi)
        as Hoi.
      eexists _, _.
      split; [ eapply nth_error_In, Hoi | ].
      split; [ eapply nth_error_In, Hoj | ].
      cbn. repeat split. lia.
Qed.

End WithSort.

Lemma rising_closes_positive (c : R) : In c rising_closes -> c <> 0.
Proof.
  unfold rising_closes. rewrite in_map_iff. intros (n & <- & Hn).
  apply in_seq in Hn. apply not_0_INR. lia.
Qed.

(** The theorem on the closes 1, 2, ..., 252, where the volatility is present
    and is the annualised sample deviation of the last 62 returns, and on
    the universe WILD, CALM, where CALM is returned above WILD. *)
Lemma low_vol_raw_then_negated_witness :
  Agent6.sorts_descending Agent6.sort_by_insertion
  /\ (VOLATILITY_WINDOW_DAYS <= Z.of_nat (length rising_closes))%Z
  /\ Forall (fun c => c <> 0) (trailing 63 rising_closes)
  /\ Agent5._compute_volatility rising_prices
     = Some (sample_std (simple_returns (trailing 63 rising_closes)) * sqrt 252)
  /\ exists oa ob,
       In oa (Agent6.rank_stocks Agent6.sort_by_insertion calm_and_wild (Some 3%Z))
       /\ In ob (Agent6.rank_stocks Agent6.sort_by_insertion calm_and_wild (Some 3%Z))
       /\ Agent6.ticker oa = "CALM"%string
       /\ Agent6.ticker ob = "WILD"%string
       /\ (Agent6.rank oa < Agent6.rank ob)%Z.
Proof.
  assert (Hlen : (VOLATILITY_WINDOW_DAYS <= Z.of_nat (length rising_closes))%Z).
  { unfold rising_closes, VOLATILITY_WINDOW_DAYS.
    rewrite length_map, length_seq. lia. }
  assert (Hnz : Forall (fun c => c <> 0) (trailing 63 rising_closes)).
  { apply Forall_forall. intros c Hc. apply rising_closes_positive.
    unfold trailing in Hc.
    rewrite <- (firstn_skipn (length rising_closes - 63) rising_closes).
    apply in_or_app. now right. }
  pose proof (low_vol_raw_then_negated Agent6.sort_by_insertion
                Ranking.sort_by_insertion_sorts rising_prices "T"
                (mock "T" GOOD_FUNDAMENTALS) "2022-01-01" "2023-01-01"
                GOOD_FUNDAMENTALS calm_and_wild (Some 3%Z))
    as (_ & H & _ & _ & _ & _ & _ & _ & _ & Hrank).
  split; [ apply Ranking.sort_by_insertion_sorts | ].
  split; [ exact Hlen | split; [ exact Hnz | split ] ].
  - unfold rising_prices in H |- *. rewrite Factors.dropna_bar_of_close in H.
    apply H; assumption.
  - assert (Hcalm : In calm calm_and_wild) by (right; now left).
    assert (Hwild : In wild calm_and_wild) by now left.
    assert (Hlt : 15 / 100 < 45 / 100) by lra.
    destruct (Hrank calm wild (15 / 100) (45 / 100) Hcalm Hwild
                eq_refl eq_refl eq_refl eq_refl Hlt) as (_ & _ & _ & Hboth).
    apply Hboth. cbn. lia.
Defined.

End Pipeline.
